(** * time_series.py: target curve and plotting pipeline

    A shallow embedding of [src/time_series.py] ([get_target] and [work])
    together with the parts of Python, numpy, pandas and matplotlib that
    the two functions call.

    Conventions of the model.
    - A float64 is an exact rational ([Q]): rounding is left out, while
      overflow is kept where the code can meet it (a sum that leaves
      the float64 range is not a finite number any more).
    - A pandas Timestamp is an integer count of nanoseconds since the
      epoch ([Z]), a [datetime.timedelta] an integer count of
      microseconds; date arithmetic raises when it leaves the range of
      64-bit nanoseconds, or the range of days of a [timedelta].
    - What the libraries decide by rules that are no part of this
      repository (how a malformed file fails to parse, which strings
      are colours, which figures can be rendered and written) is taken
      from an environment [Env].
    - A Python argument that may be [None] is an [option].
    - An exception is a value of [exn]; code that may raise returns a
      [result].
    - A pandas Series is the list of its (index, value) entries, in
      order.  In a computed series, a value that is not a finite number
      (NaN, or an infinity) is [None]. *)

From Stdlib Require Import String ZArith QArith Qabs Qround List Bool Lia Lqa
  Sorted.
Import ListNotations.

Open Scope Z_scope.

(** ** Exceptions *)

Inductive exn : Type :=
| TypeError
| ValueError
| ZeroDivisionError
| IndexError
| KeyError
| OverflowError
| AttributeError
| FileNotFoundError
| OutOfBoundsDatetime
| OutOfBoundsTimedelta
| ParserError
| OSError.

Inductive result (A : Type) : Type :=
| Ok (a : A)
| Raise (e : exn).

Arguments Ok {A} a.
Arguments Raise {A} e.

Definition bind {A B : Type} (r : result A) (k : A -> result B) : result B :=
  match r with
  | Ok a => k a
  | Raise e => Raise e
  end.

Declare Scope result_scope.
Delimit Scope result_scope with result.
Notation "x <- r ;; k" := (bind r (fun x => k))
  (at level 61, r at next level, right associativity) : result_scope.
Notation "' p <- r ;; k" := (bind r (fun x => match x with p => k end))
  (at level 61, p pattern, r at next level, right associativity) : result_scope.

(** ** Numbers *)

Definition Qltb (a b : Q) : bool := negb (Qle_bool b a).

(** A scalar as Python sees it: a plain Python number, a numpy scalar
    (what indexing a Series with a unique key returns), or the sub-series
    that indexing returns for a key present more than once. *)
Inductive scalar : Type :=
| PyNum (q : Q)
| NpNum (q : Q)
| SubSeries (vs : list Q).

(** The outcome of a true division. *)
Inductive quotient : Type :=
| Finite (q : Q)
| Infinite
| NotANumber
| Elementwise.

(** [a - b] for a plain number [a]: the result has the kind of [b]. *)
Definition rsub (a : Q) (b : scalar) : scalar :=
  match b with
  | PyNum q => PyNum (a - q)
  | NpNum q => NpNum (a - q)
  | SubSeries vs => SubSeries (map (fun v => (a - v)%Q) vs)
  end.

(** The result of an operation on float64 is a finite number as long
    as it stays below the point halfway between the largest float64 and
    [2 ^ 1024]; beyond, it is an infinity, and what is computed from it
    is an infinity or a NaN. *)
Definition FLOAT_LIMIT : Q := inject_Z (2 ^ 1024 - 2 ^ 970).

Definition is_finite (q : Q) : bool := Qltb (Qabs q) FLOAT_LIMIT.

(** [x / g] for a plain number [g] and a difference [x] of two
    numbers.  Python raises on a zero divisor; numpy warns and yields an
    infinity or a NaN.  A difference or a quotient beyond the float64
    range is an infinity. *)
Definition true_divide (x : scalar) (g : Q) : result quotient :=
  let ratio (q : Q) :=
    if is_finite q && is_finite (q / g) then Finite (q / g) else Infinite in
  match x with
  | PyNum q =>
      if Qeq_bool g 0 then Raise ZeroDivisionError else Ok (ratio q)
  | NpNum q =>
      if Qeq_bool g 0
      then Ok (if Qeq_bool q 0 then NotANumber else Infinite)
      else Ok (ratio q)
  | SubSeries _ => Ok Elementwise
  end.

(** The largest 64-bit integer.  The smallest one, [- 2 ^ 63], is the
    mark pandas keeps for a missing time and counts as out of range. *)
Definition INT64_MAX : Z := 2 ^ 63 - 1.

Definition fits_int64 (z : Z) : bool := Z.abs z <=? INT64_MAX.

Definition round_half_even (x : Q) : Z :=
  let f := Qfloor x in
  match ((x - inject_Z f) ?= (1 # 2))%Q with
  | Lt => f
  | Gt => f + 1
  | Eq => if Z.even f then f else f + 1
  end.

Module py.

(** [max] and [min] of a list of numbers; the first extreme entry is
    the one returned. *)
Definition max (l : option (list Q)) : result Q :=
  match l with
  | None => Raise TypeError
  | Some [] => Raise ValueError
  | Some (x :: r) => Ok (fold_left (fun m y => if Qltb m y then y else m) r x)
  end.

Definition min (l : option (list Q)) : result Q :=
  match l with
  | None => Raise TypeError
  | Some [] => Raise ValueError
  | Some (x :: r) => Ok (fold_left (fun m y => if Qltb y m then y else m) r x)
  end.

Definition US_PER_DAY : Z := 86400000000.

Definition MAX_DELTA_DAYS : Z := 999999999.

(** [timedelta(days=x)], in microseconds, rounded half to even; its
    whole days must not exceed [MAX_DELTA_DAYS] either way. *)
Definition timedelta (days : quotient) : result Z :=
  match days with
  | Finite q =>
      let us := round_half_even (q * inject_Z US_PER_DAY) in
      if Z.abs (us / US_PER_DAY) <=? MAX_DELTA_DAYS then Ok us
      else Raise OverflowError
  | Infinite => Raise OverflowError
  | NotANumber => Raise ValueError
  | Elementwise => Raise TypeError
  end.

(** [l[i]] for a list that may be [None]. *)
Definition getitem {A : Type} (l : option (list A)) (i : nat) : result A :=
  match l with
  | None => Raise TypeError
  | Some xs =>
      match nth_error xs i with
      | Some x => Ok x
      | None => Raise IndexError
      end
  end.

End py.

Module np.

Fixpoint argmin_from (best_i : nat) (best : Z) (i : nat) (l : list Z) : nat :=
  match l with
  | [] => best_i
  | x :: r =>
      if x <? best then argmin_from i x (S i) r
      else argmin_from best_i best (S i) r
  end.

(** Position of the first smallest entry. *)
Definition argmin (l : list Z) : result nat :=
  match l with
  | [] => Raise ValueError
  | x :: r => Ok (argmin_from 0%nat x 1%nat r)
  end.

(** [linspace(start, stop, num)], end point included. *)
Definition linspace (start stop : Q) (num : nat) : list Q :=
  match num with
  | O => []
  | S O => [start]
  | S div =>
      let step := ((stop - start) / inject_Z (Z.of_nat div))%Q in
      map (fun i => (inject_Z (Z.of_nat i) * step + start)%Q) (seq 0 div)
        ++ [stop]
  end.

End np.

(** ** Series and dates *)

Abbreviation Timestamp := Z (only parsing).
Abbreviation Series := (list (Z * Q)) (only parsing).

Definition DAY : Z := 86400000000000.

(** Days since the epoch of a civil date. *)
Definition days_from_civil (y m d : Z) : Z :=
  let y' := if m <=? 2 then y - 1 else y in
  let era := y' / 400 in
  let yoe := y' - era * 400 in
  let mp := if 2 <? m then m - 3 else m + 9 in
  let doy := (153 * mp + 2) / 5 + d - 1 in
  let doe := yoe * 365 + yoe / 4 - yoe / 100 + doy in
  era * 146097 + doe - 719468.

Definition date (y m d : Z) : Timestamp := days_from_civil y m d * DAY.

Definition HOUR : Z := 3600000000000.

(** The calendar day a timestamp falls on. *)
Definition calendar_day (t : Timestamp) : Z := t / DAY.

Module pd.

Definition index (s : Series) : list Timestamp := map fst s.
Definition values (s : Series) : list Q := map snd s.

(** [pd.Series(values, index=index)] for sequences of equal length. *)
Definition Series_of (vals : list Q) (idx : list Timestamp) : Series :=
  combine idx vals.

(** [s[key]] for a timestamp key. *)
Definition getitem (s : Series) (key : Timestamp) : result scalar :=
  match map snd (filter (fun p => fst p =? key) s) with
  | [] => Raise KeyError
  | [v] => Ok (NpNum v)
  | vs => Ok (SubSeries vs)
  end.

(** [index - date]: the differences, unless one of them leaves the
    64-bit range. *)
Definition index_sub (idx : list Timestamp) (d : Timestamp)
  : result (list Z) :=
  if forallb (fun t => fits_int64 (t - d)) idx
  then Ok (map (fun t => t - d) idx)
  else Raise OverflowError.

(** [date + timedelta], the offset given in microseconds. *)
Definition timestamp_add (d : Timestamp) (delta : Z) : result Timestamp :=
  if negb (fits_int64 (1000 * delta)) then Raise OutOfBoundsTimedelta
  else if negb (fits_int64 (d + 1000 * delta)) then Raise OutOfBoundsDatetime
  else Ok (d + 1000 * delta).

(** [pd.date_range(start, end)]: the daily steps from [start] that do
    not pass [end]. *)
Definition date_range (start stop : Timestamp) : list Timestamp :=
  if stop <? start then []
  else map (fun k => start + Z.of_nat k * DAY)
           (seq 0 (S (Z.to_nat ((stop - start) / DAY)))).

End pd.

Local Open Scope result_scope.

(** ** get_target *)

Definition as_float (x : scalar) : result Q :=
  match x with
  | PyNum q => Ok q
  | NpNum q => Ok q
  | SubSeries _ => Raise TypeError
  end.

(** Lines 30-34: the start of the target curve.  With [target_start]
    given, the date and the value pass through; otherwise both are read
    from the entry of [ts] nearest to [target_start_date]. *)
Definition resolve_start (target_start_date : option Timestamp)
    (target_start : option Q) (ts : option Series)
  : result (option Timestamp * scalar) :=
  match target_start with
  | Some v => Ok (target_start_date, PyNum v)
  | None =>
      s <- match ts with Some s => Ok s | None => Raise AttributeError end ;;
      d <- match target_start_date with
           | Some d => Ok d
           | None => Raise TypeError
           end ;;
      diffs <- pd.index_sub (pd.index s) d ;;
      idx <- np.argmin (map Z.abs diffs) ;;
      d' <- py.getitem (Some (pd.index s)) idx ;;
      v <- pd.getitem s d' ;;
      Ok (Some d', v)
  end.

(** What lines 30-44 settle: where the curve starts and where it ends. *)
Record Plan : Type := {
  start_date : Timestamp;
  start_value : Q;
  end_value : Q;
  end_date : Timestamp
}.

Definition target_plan (target_start_date : option Timestamp)
    (target_gradient : option Q) (target_start : option Q)
    (ts : option Series) (thresholds : option (list Q)) : result Plan :=
  ' (target_start_date, target_start) <-
      resolve_start target_start_date target_start ts ;;
  match target_gradient with
  | None => Raise TypeError
  | Some g =>
      target_end <- (if Qltb 0 g then py.max thresholds
                     else py.min thresholds) ;;
      days <- true_divide (rsub target_end target_start) g ;;
      delta <- py.timedelta days ;;
      match target_start_date with
      | None => Raise TypeError
      | Some d0 =>
          target_end_date <- pd.timestamp_add d0 delta ;;
          v0 <- as_float target_start ;;
          Ok {| start_date := d0; start_value := v0;
                end_value := target_end; end_date := target_end_date |}
      end
  end.

(** Lines 46-48: one entry per daily step, values spread evenly. *)
Definition curve (p : Plan) : Series :=
  let target_index := pd.date_range (start_date p) (end_date p) in
  let target_value :=
    np.linspace (start_value p) (end_value p) (length target_index) in
  pd.Series_of target_value target_index.

Definition get_target (target_start_date : option Timestamp)
    (target_gradient : option Q) (target_start : option Q)
    (ts : option Series) (thresholds : option (list Q)) : result Series :=
  p <- target_plan target_start_date target_gradient target_start
         ts thresholds ;;
  Ok (curve p).

(** ** Rolling and expanding means *)

Fixpoint Qsum (l : list Q) : Q :=
  match l with
  | [] => 0
  | x :: r => x + Qsum r
  end.

(** The arithmetic mean of a list, in exact arithmetic. *)
Definition mean (l : list Q) : Q :=
  (Qsum l / inject_Z (Z.of_nat (length l)))%Q.

(** A running sum plus or minus an observation; [None] when the sum
    is not a finite number any more. *)
Definition fadd (acc : option Q) (v : Q) : option Q :=
  match acc with
  | Some x => if is_finite (x + v) then Some (x + v)%Q else None
  | None => None
  end.

Definition fsub (acc : option Q) (v : Q) : option Q :=
  match acc with
  | Some x => if is_finite (x - v) then Some (x - v)%Q else None
  | None => None
  end.

Module win.

Record Window : Type := {
  obj : Series;
  (** [None]: the window grows from the start of the series. *)
  size : option nat;
  min_periods : nat
}.

(** [ts.rolling(window=w)]: [min_periods] defaults to the window size. *)
Definition rolling (s : Series) (w : nat) (min_periods : option nat)
  : Window :=
  {| obj := s; size := Some w;
     min_periods := match min_periods with Some m => m | None => w end |}.

(** [ts.expanding()]: [min_periods] defaults to 1. *)
Definition expanding (s : Series) : Window :=
  {| obj := s; size := None; min_periods := 1 |}.

(** The observations in the window that ends at position [i]. *)
Definition window_at (r : Window) (i : nat) : list Q :=
  let upto := firstn (S i) (pd.values (obj r)) in
  match size r with
  | Some w => skipn (S i - w) upto
  | None => upto
  end.

(** The sum pandas keeps for the window that ends at position [i]:
    going from one position to the next, the observation that leaves
    the window is taken off the sum and the one that enters is added. *)
Fixpoint sum_at (r : Window) (i : nat) : option Q :=
  let vals := pd.values (obj r) in
  match i with
  | O => fadd (Some 0%Q) (nth 0 vals 0%Q)
  | S j =>
      let kept :=
        match size r with
        | Some w =>
            if (w <=? S j)%nat
            then fsub (sum_at r j) (nth (S j - w) vals 0%Q)
            else sum_at r j
        | None => sum_at r j
        end in
      fadd kept (nth (S j) vals 0%Q)
  end.

(** The mean at position [i]: none with fewer than [min_periods]
    observations in the window, else the sum over their number. *)
Definition mean_at (r : Window) (i : nat) : option Q :=
  let n := length (window_at r i) in
  if (n <? min_periods r)%nat then None
  else match sum_at r i with
       | Some total => Some (total / inject_Z (Z.of_nat n))%Q
       | None => None
       end.

(** [.mean()]: one entry per entry of the series. *)
Definition mean (r : Window) : list (Timestamp * option Q) :=
  combine (pd.index (obj r))
          (map (mean_at r) (seq 0 (length (obj r)))).

End win.

(** ** The world [work] acts on *)

(** One drawn trace: its points, its style string, and the [color] and
    [label] keywords of the call that drew it. *)
Record Line : Type := {
  xdata : list Timestamp;
  ydata : list (option Q);
  fmt : string;
  color : option string;
  label : option string
}.

(** matplotlib's current figure. *)
Record Figure : Type := {
  fig_lines : list Line;
  fig_legend : option (string * string);
  fig_ylabel : option string;
  fig_xlabel : option string
}.

(** A data file as the reader sees it: its rows, each already split at
    the semicolon into the observation and the date. *)
Definition Rows : Type := list (Q * Timestamp).

(** The world: the data files by name (those the reader can parse into
    rows of a number and a date; a file without rows is one of them),
    what has been printed, the current figure, and the images written
    so far, each with its name and resolution. *)
Record World : Type := {
  files : list (string * Rows);
  stdout : list string;
  gcf : Figure;
  saved : list (string * Z * Figure)
}.

(** How a call of [plt.savefig] ends: the image is written; or the call
    raises before it opens the file (a format it does not support, a
    directory that is missing, a figure it cannot render); or it raises
    once the file is open, which is then left without an image, and
    [emptied] tells whether it is left without any content at all. *)
Inductive Saving : Type :=
| Written
| Refused (e : exn)
| Broken (e : exn) (emptied : bool).

(** What the libraries decide by rules of their own: the exception the
    reader raises for a name under which the world has no data file
    (there is no such file, or it is not one the parser accepts), which
    strings name a colour, and how saving a figure under a name ends. *)
Record Env : Type := {
  reader_error : string -> exn;
  is_color : string -> bool;
  saving : string -> Figure -> Saving
}.

Definition M (A : Type) : Type := World -> World * result A.

Definition ret {A : Type} (a : A) : M A := fun w => (w, Ok a).

Definition raise {A : Type} (e : exn) : M A := fun w => (w, Raise e).

Definition mbind {A B : Type} (m : M A) (k : A -> M B) : M B :=
  fun w =>
    match m w with
    | (w', Ok a) => k a w'
    | (w', Raise e) => (w', Raise e)
    end.

Definition lift {A : Type} (r : result A) : M A := fun w => (w, r).

Declare Scope io_scope.
Delimit Scope io_scope with io.
Notation "x <~ m ;; k" := (mbind m (fun x => k))
  (at level 61, m at next level, right associativity) : io_scope.
Notation "m ;;; k" := (mbind m (fun _ => k))
  (at level 61, right associativity) : io_scope.

Local Open Scope io_scope.

(** [try: body / except: handler; raise]. *)
Definition try_reraise {A : Type} (body : M A) (handler : M unit) : M A :=
  fun w =>
    match body w with
    | (w', Ok a) => (w', Ok a)
    | (w', Raise e) => (fst (handler w'), Raise e)
    end.

Definition print (s : string) : M unit :=
  fun w => ({| files := files w; stdout := stdout w ++ [s];
               gcf := gcf w; saved := saved w |}, Ok tt).

Definition update_figure (f : Figure -> Figure) : M unit :=
  fun w => ({| files := files w; stdout := stdout w;
               gcf := f (gcf w); saved := saved w |}, Ok tt).

Fixpoint for_enumerate {A : Type} (i : nat) (l : list A)
    (body : nat -> A -> M unit) : M unit :=
  match l with
  | [] => ret tt
  | x :: r => body i x ;;; for_enumerate (S i) r body
  end.

Fixpoint lookup_file (name : string) (fs : list (string * Rows))
  : option Rows :=
  match fs with
  | [] => None
  | (n, rows) :: r => if String.eqb n name then Some rows
                      else lookup_file name r
  end.

Fixpoint remove_file (name : string) (fs : list (string * Rows))
  : list (string * Rows) :=
  match fs with
  | [] => []
  | (n, rows) :: r => if String.eqb n name then remove_file name r
                      else (n, rows) :: remove_file name r
  end.

Module plt.

Definition add_line (l : Line) : M unit :=
  update_figure (fun f =>
    {| fig_lines := fig_lines f ++ [l]; fig_legend := fig_legend f;
       fig_ylabel := fig_ylabel f; fig_xlabel := fig_xlabel f |}).

(** [plt.plot(x, y, fmt, color=..., label=...)]: a string that names no
    colour is a value error, and nothing is drawn. *)
Definition plot (E : Env) (x : list Timestamp) (y : list Q) (fmt : string)
    (color label : option string) : M unit :=
  let line := {| xdata := x; ydata := map Some y; fmt := fmt;
                 color := color; label := label |} in
  match color with
  | Some c => if is_color E c then add_line line else raise ValueError
  | None => add_line line
  end.

Definition legend (fontsize loc : string) : M unit :=
  update_figure (fun f =>
    {| fig_lines := fig_lines f; fig_legend := Some (fontsize, loc);
       fig_ylabel := fig_ylabel f; fig_xlabel := fig_xlabel f |}).

Definition ylabel (s : string) : M unit :=
  update_figure (fun f =>
    {| fig_lines := fig_lines f; fig_legend := fig_legend f;
       fig_ylabel := Some s; fig_xlabel := fig_xlabel f |}).

Definition xlabel (s : string) : M unit :=
  update_figure (fun f =>
    {| fig_lines := fig_lines f; fig_legend := fig_legend f;
       fig_ylabel := fig_ylabel f; fig_xlabel := Some s |}).

(** [plt.savefig(fname, format=None, dpi=dpi)].  Once the file is
    open for writing, what it held is gone: there is no data file under
    that name any more, or one without rows if the file is left without
    content. *)
Definition savefig (E : Env) (fname : string) (dpi : Z) : M unit :=
  fun w =>
    match saving E fname (gcf w) with
    | Written =>
        ({| files := remove_file fname (files w); stdout := stdout w;
            gcf := gcf w; saved := saved w ++ [(fname, dpi, gcf w)] |},
         Ok tt)
    | Refused e => (w, Raise e)
    | Broken e emptied =>
        ({| files := if emptied
                     then (fname, []) :: remove_file fname (files w)
                     else remove_file fname (files w);
            stdout := stdout w; gcf := gcf w; saved := saved w |},
         Raise e)
    end.

End plt.

(** [.plot(style=..., color=..., label=...)] of a series, which draws
    on the current figure.  The one colour [work] passes here is the
    literal ["grey"], a colour by name. *)
Definition series_line (s : list (Timestamp * option Q)) (style : string)
    (color label : option string) : Line :=
  {| xdata := map fst s; ydata := map snd s; fmt := style;
     color := color; label := label |}.

Definition series_plot (s : list (Timestamp * option Q)) (style : string)
    (color label : option string) : M unit :=
  plt.add_line (series_line s style color label).

Definition observed (s : Series) : list (Timestamp * option Q) :=
  map (fun p => (fst p, Some (snd p))) s.

(** The series of a file's rows: the date is the index, the
    observation the value. *)
Definition series_of_rows (rows : Rows) : Series :=
  map (fun r => (snd r, fst r)) rows.

(** [pd.read_csv(name, delimiter=";", header=None, names=["Observations"],
    parse_dates=True, index_col=1, squeeze=True)].  The second field of
    each row becomes the index and the first the value.  Without any row
    to fix the number of fields, the one supplied name is all the reader
    has, and position 1 asked for the index is out of its range.  Where
    the world has no data file under the name, the reader raises what
    the environment says. *)
Definition read_csv (E : Env) (name : string) : M Series :=
  fun w =>
    match lookup_file name (files w) with
    | None => (w, Raise (reader_error E name))
    | Some [] => (w, Raise IndexError)
    | Some rows => (w, Ok (series_of_rows rows))
    end.

(** [l[0]] and [l[-1]]. *)
Definition first_item {A : Type} (l : list A) : result A :=
  match l with
  | [] => Raise IndexError
  | x :: _ => Ok x
  end.

Definition last_item {A : Type} (l : list A) : result A :=
  first_item (rev l).

(** ** work *)

(** Lines 101-108, the body of the loop: the dashed line of one
    threshold, with the colour and the name at the threshold's position. *)
Definition plot_threshold (E : Env) (thresholds_index : list Timestamp)
    (threshold_names threshold_colours : option (list string))
    (ithreshold : nat) (threshold : Q) : M unit :=
  c <~ lift (py.getitem threshold_colours ithreshold) ;;
  n <~ lift (py.getitem threshold_names ithreshold) ;;
  plt.plot E thresholds_index [threshold; threshold] "--"%string
           (Some c) (Some n).

Definition work (E : Env) (time_series_filename png_filename : string)
    (thresholds : option (list Q))
    (threshold_names threshold_colours : option (list string))
    (y_axis_label : string) (target_start : option Q)
    (target_start_date : option Timestamp) (target_gradient : option Q)
  : M unit :=
  ts <~ try_reraise (read_csv E time_series_filename)
                    (print "Could not read data file"%string) ;;
  let ra := win.rolling ts 7 None in
  let ea := win.expanding ts in
  target <~ lift (get_target target_start_date target_gradient None
                             (Some ts) thresholds) ;;
  ts0 <~ lift (first_item (pd.index ts)) ;;
  target0 <~ lift (first_item (pd.index target)) ;;
  ts1 <~ lift (last_item (pd.index ts)) ;;
  target1 <~ lift (last_item (pd.index target)) ;;
  let thresholds_index := [Z.min ts0 target0; Z.max ts1 target1] in
  ths <~ lift (match thresholds with
               | Some l => Ok l
               | None => Raise TypeError
               end) ;;
  for_enumerate 0 ths
    (plot_threshold E thresholds_index threshold_names threshold_colours) ;;;
  series_plot (observed ts) "b."%string None None ;;;
  series_plot (win.mean ra) "b-"%string None
              (Some "Rolling weekly average"%string) ;;;
  series_plot (win.mean ea) "b-"%string None
              (Some "Running average"%string) ;;;
  series_plot (observed target) "--"%string (Some "grey"%string) None ;;;
  plt.legend "small"%string "lower left"%string ;;;
  plt.ylabel y_axis_label ;;;
  plt.xlabel "Date"%string ;;;
  plt.savefig E png_filename 200.

(** ** Notions the statements use *)

(** The whole days from [start] to [stop]. *)
Definition whole_days (start stop : Timestamp) : nat :=
  Z.to_nat ((stop - start) / DAY).

(** The consecutive days from [a] to [b], both included. *)
Definition days_between (a b : Z) : list Z :=
  map (fun k => a + Z.of_nat k) (seq 0 (Z.to_nat (b - a + 1))).

(** The error a zero gradient ends in, by the kind of the start value
    [x] and the smallest threshold [m]. *)
Definition zero_gradient_error (x : scalar) (m : Q) : exn :=
  match x with
  | PyNum _ => ZeroDivisionError
  | NpNum q => if Qeq_bool (m - q) 0 then ValueError else OverflowError
  | SubSeries _ => TypeError
  end.

(** Half the range of float64: observations whose absolute values add
    up to no more than this have sums that stay finite, rounding
    included. *)
Definition HALF_RANGE : Q := inject_Z (2 ^ 1023).

(** Dates less than [2 ^ 62] nanoseconds from the epoch (the years
    1824 to 2116), and ways from the start value to the thresholds of
    at most half the range of float64, and of at most [50000] days at
    the gradient [gq]: within these bounds the arithmetic on numbers and
    on dates stays clear of all its range limits. *)
Definition near_epoch (t : Timestamp) : Prop := Z.abs t < 2 ^ 62.

Definition short_way (v gq : Q) (ths : list Q) : Prop :=
  Forall (fun e => (Qabs (e - v) <= HALF_RANGE
                    /\ Qabs ((e - v) / gq) <= 50000)%Q) ths.


(** The dashed line of a threshold. *)
Definition threshold_line (x0 x1 : Timestamp) (threshold : Q)
    (c n : string) : Line :=
  {| xdata := [x0; x1]; ydata := [Some threshold; Some threshold];
     fmt := "--"%string; color := Some c; label := Some n |}.

(** The world after [added] is drawn on the current figure. *)
Definition drawn (w : World) (added : list Line) : World :=
  {| files := files w; stdout := stdout w;
     gcf := {| fig_lines := fig_lines (gcf w) ++ added;
               fig_legend := fig_legend (gcf w);
               fig_ylabel := fig_ylabel (gcf w);
               fig_xlabel := fig_xlabel (gcf w) |};
     saved := saved w |}.

(** The four traces [work] draws after the thresholds: the
    observations, the two means and the target curve. *)
Definition traces (ts target : Series) : list Line :=
  [ series_line (observed ts) "b."%string None None;
    series_line (win.mean (win.rolling ts 7 None)) "b-"%string None
                (Some "Rolling weekly average"%string);
    series_line (win.mean (win.expanding ts)) "b-"%string None
                (Some "Running average"%string);
    series_line (observed target) "--"%string (Some "grey"%string) None ].

(** The figure [work] leaves behind, and saves, once everything is
    drawn. *)
Definition finished (f : Figure) (added : list Line) (y_axis_label : string)
  : Figure :=
  {| fig_lines := fig_lines f ++ added;
     fig_legend := Some ("small", "lower left")%string;
     fig_ylabel := Some y_axis_label;
     fig_xlabel := Some "Date"%string |}.

(** The world after [s] is printed. *)
Definition printed (w : World) (s : string) : World :=
  {| files := files w; stdout := stdout w ++ [s];
     gcf := gcf w; saved := saved w |}.

(** A figure with nothing drawn, and a world with the given files. *)
Definition empty_figure : Figure :=
  {| fig_lines := []; fig_legend := None;
     fig_ylabel := None; fig_xlabel := None |}.

Definition fresh_world (fs : list (string * Rows)) : World :=
  {| files := fs; stdout := []; gcf := empty_figure; saved := [] |}.

(** The error of the pass of the loop for the threshold at position
    [i], if it has one: a colour or a name that is missing, or a colour
    that is none. *)
Definition threshold_error (E : Env) (ns cs : list string) (i : nat)
  : option exn :=
  match nth_error cs i, nth_error ns i with
  | None, _ => Some IndexError
  | Some _, None => Some IndexError
  | Some c, Some _ => if is_color E c then None else Some ValueError
  end.

(** An environment for trying the statements out: a name without a
    data file is a file not found, or for [notes.txt] a file the parser
    rejects; five names are colours; images are written under names that
    end in [.png] and refused under any other, as of a format that is
    not supported. *)
Definition sample_env : Env :=
  {| reader_error := fun name =>
       if String.eqb name "notes.txt" then ParserError
       else FileNotFoundError;
     is_color := fun c =>
       existsb (String.eqb c)
               ["red"; "green"; "blue"; "grey"; "black"]%string;
     saving := fun name _ =>
       if String.eqb (substring (String.length name - 4) 4 name) ".png"
       then Written else Refused ValueError |}.

(** A world with a two-row data file and an empty one, and a call of
    [work] on the former. *)
Definition sample_world : World :=
  fresh_world [("data.csv"%string,
                [(5%Q, date 2020 1 1); (6%Q, date 2020 1 2)]);
               ("empty.dat"%string, [])].

Definition sample_run (png : string) : M unit :=
  work sample_env "data.csv" png (Some [7%Q]) (Some ["limit"%string])
       (Some ["red"%string]) "Value" None (Some (date 2020 1 1))
       (Some 1%Q).

(** * Properties *)

(** ** Lists *)

Lemma first_item_app {A : Type} (x : A) (l r : list A) :
  first_item ((x :: l) ++ r) = Ok x.
Proof. reflexivity. Qed.

Lemma last_item_app {A : Type} (l : list A) (x : A) :
  last_item (l ++ [x]) = Ok x.
Proof. unfold last_item. rewrite rev_app_distr. reflexivity. Qed.

Lemma combine_app_same {A B : Type} (l1 l2 : list A) (r1 r2 : list B) :
  length l1 = length r1 ->
  combine (l1 ++ l2) (r1 ++ r2) = combine l1 r1 ++ combine l2 r2.
Proof.
  revert r1. induction l1 as [|a l1 IH]; intros [|b r1] H; simpl in *;
    try discriminate; [reflexivity|].
  f_equal. apply IH. congruence.
Qed.

Lemma map_fst_combine {A B : Type} (l : list A) (r : list B) :
  length l = length r -> map fst (combine l r) = l.
Proof.
  revert r. induction l as [|a l IH]; intros [|b r] H; simpl in *;
    try discriminate; [reflexivity|].
  f_equal. apply IH. congruence.
Qed.

Lemma map_snd_combine {A B : Type} (l : list A) (r : list B) :
  length l = length r -> map snd (combine l r) = r.
Proof.
  revert r. induction l as [|a l IH]; intros [|b r] H; simpl in *;
    try discriminate; [reflexivity|].
  f_equal. apply IH. congruence.
Qed.

(** ** date_range *)

Lemma DAY_pos : 0 < DAY.
Proof. reflexivity. Qed.

Lemma date_range_empty (start stop : Timestamp) :
  stop < start -> pd.date_range start stop = [].
Proof.
  intros H. unfold pd.date_range.
  destruct (Z.ltb_spec stop start); [reflexivity | lia].
Qed.

Lemma date_range_steps (start stop : Timestamp) :
  start <= stop ->
  pd.date_range start stop =
  map (fun k => start + Z.of_nat k * DAY) (seq 0 (S (whole_days start stop))).
Proof.
  intros H. unfold pd.date_range.
  destruct (Z.ltb_spec stop start); [lia | reflexivity].
Qed.

Lemma date_range_length (start stop : Timestamp) :
  start <= stop ->
  length (pd.date_range start stop) = S (whole_days start stop).
Proof.
  intros H. rewrite date_range_steps by assumption.
  now rewrite length_map, length_seq.
Qed.

Lemma whole_days_bound (start stop : Timestamp) :
  start <= stop ->
  start + Z.of_nat (whole_days start stop) * DAY <= stop
  /\ stop < start + Z.of_nat (whole_days start stop) * DAY + DAY.
Proof.
  intros H. unfold whole_days.
  assert (Hq : 0 <= (stop - start) / DAY)
    by (apply Z.div_pos; [lia | apply DAY_pos]).
  rewrite Z2Nat.id by assumption.
  pose proof (Z.mul_div_le (stop - start) DAY DAY_pos).
  pose proof (Z.mul_succ_div_gt (stop - start) DAY DAY_pos).
  lia.
Qed.

(** ** linspace *)

Lemma linspace_length (a b : Q) (n : nat) : length (np.linspace a b n) = n.
Proof.
  destruct n as [|[|n]]; try reflexivity.
  unfold np.linspace. rewrite length_app, length_map, length_seq. simpl. lia.
Qed.

Lemma linspace_two (a b : Q) (n : nat) :
  np.linspace a b (S (S n)) =
  map (fun i => (inject_Z (Z.of_nat i)
                 * ((b - a) / inject_Z (Z.of_nat (S n))) + a)%Q)
      (seq 0 (S n)) ++ [b].
Proof. reflexivity. Qed.

(** ** The curve *)

Lemma curve_index (p : Plan) :
  pd.index (curve p) = pd.date_range (start_date p) (end_date p).
Proof.
  unfold curve, pd.index, pd.Series_of.
  apply map_fst_combine. now rewrite linspace_length.
Qed.

Lemma curve_values (p : Plan) :
  pd.values (curve p) =
  np.linspace (start_value p) (end_value p)
              (length (pd.date_range (start_date p) (end_date p))).
Proof.
  unfold curve, pd.values, pd.Series_of.
  apply map_snd_combine. now rewrite linspace_length.
Qed.

Lemma curve_length (p : Plan) :
  length (curve p) = length (pd.date_range (start_date p) (end_date p)).
Proof.
  rewrite <- curve_index. unfold pd.index. now rewrite length_map.
Qed.

Lemma curve_empty (p : Plan) :
  end_date p < start_date p -> curve p = [].
Proof.
  intros H. unfold curve. now rewrite date_range_empty.
Qed.

Lemma curve_first (p : Plan) :
  start_date p <= end_date p ->
  exists v, first_item (curve p) = Ok (start_date p, v)
            /\ (v == start_value p)%Q.
Proof.
  intros H. unfold curve.
  rewrite date_range_steps by assumption.
  rewrite length_map, length_seq.
  destruct (whole_days (start_date p) (end_date p)) as [|n].
  - exists (start_value p). split; [|reflexivity].
    cbn [seq map np.linspace pd.Series_of combine first_item].
    do 2 f_equal. change (Z.of_nat 0) with 0. ring.
  - rewrite linspace_two.
    cbn [seq map pd.Series_of combine first_item app].
    eexists. split.
    + do 2 f_equal. change (Z.of_nat 0) with 0. ring.
    + change (Z.of_nat 0) with 0. ring.
Qed.

Lemma curve_last (p : Plan) :
  start_date p <= end_date p ->
  let n := whole_days (start_date p) (end_date p) in
  last_item (curve p) =
  Ok (start_date p + Z.of_nat n * DAY,
      match n with O => start_value p | S _ => end_value p end).
Proof.
  intros H n. unfold curve.
  rewrite date_range_steps by assumption.
  rewrite length_map, length_seq. fold n.
  destruct n as [|m].
  - reflexivity.
  - rewrite linspace_two. rewrite (seq_S (S m)), map_app.
    unfold pd.Series_of. rewrite combine_app_same
      by now rewrite !length_map.
    cbn [map combine]. rewrite last_item_app. reflexivity.
Qed.

(** ** Python's max and min *)

Lemma Qltb_lt (a b : Q) : Qltb a b = true <-> (a < b)%Q.
Proof.
  unfold Qltb. rewrite negb_true_iff.
  split; intros H.
  - apply Qnot_le_lt. intros Hle. apply Qle_bool_iff in Hle. congruence.
  - destruct (Qle_bool b a) eqn:E; [|reflexivity].
    apply Qle_bool_iff in E. exfalso. apply (Qlt_not_le _ _ H E).
Qed.

Lemma Qltb_ge (a b : Q) : Qltb a b = false <-> (b <= a)%Q.
Proof.
  unfold Qltb. rewrite negb_false_iff. apply Qle_bool_iff.
Qed.

Lemma fold_max_spec (r : list Q) (x : Q) :
  let m := fold_left (fun m y => if Qltb m y then y else m) r x in
  In m (x :: r) /\ Forall (fun t => (t <= m)%Q) (x :: r).
Proof.
  revert x. induction r as [|y r IH]; intros x; cbn [fold_left].
  - split; [now left | constructor; [apply Qle_refl | constructor]].
  - specialize (IH (if Qltb x y then y else x)).
    cbv zeta in IH. destruct IH as [Hin Hall].
    inversion Hall as [|? ? Hhd Htl]; subst.
    destruct (Qltb x y) eqn:E.
    + apply Qltb_lt in E. split.
      * right. exact Hin.
      * constructor; [|constructor; assumption].
        apply Qle_trans with y; [apply Qlt_le_weak|]; assumption.
    + apply Qltb_ge in E. split.
      * destruct Hin as [Hin|Hin]; [now left | now (right; right)].
      * constructor; [assumption|]. constructor; [|assumption].
        apply Qle_trans with x; assumption.
Qed.

Lemma fold_min_spec (r : list Q) (x : Q) :
  let m := fold_left (fun m y => if Qltb y m then y else m) r x in
  In m (x :: r) /\ Forall (fun t => (m <= t)%Q) (x :: r).
Proof.
  revert x. induction r as [|y r IH]; intros x; cbn [fold_left].
  - split; [now left | constructor; [apply Qle_refl | constructor]].
  - specialize (IH (if Qltb y x then y else x)).
    cbv zeta in IH. destruct IH as [Hin Hall].
    inversion Hall as [|? ? Hhd Htl]; subst.
    destruct (Qltb y x) eqn:E.
    + apply Qltb_lt in E. split.
      * right. exact Hin.
      * constructor; [|constructor; assumption].
        apply Qle_trans with y; [|apply Qlt_le_weak]; assumption.
    + apply Qltb_ge in E. split.
      * destruct Hin as [Hin|Hin]; [now left | now (right; right)].
      * constructor; [assumption|]. constructor; [|assumption].
        apply Qle_trans with x; assumption.
Qed.

Lemma py_max_spec (th : option (list Q)) (m : Q) :
  py.max th = Ok m ->
  exists l, th = Some l /\ In m l /\ Forall (fun t => (t <= m)%Q) l.
Proof.
  destruct th as [[|x r]|]; try discriminate.
  intros [= <-]. exists (x :: r). split; [reflexivity|].
  apply fold_max_spec.
Qed.

Lemma py_min_spec (th : option (list Q)) (m : Q) :
  py.min th = Ok m ->
  exists l, th = Some l /\ In m l /\ Forall (fun t => (m <= t)%Q) l.
Proof.
  destruct th as [[|x r]|]; try discriminate.
  intros [= <-]. exists (x :: r). split; [reflexivity|].
  apply fold_min_spec.
Qed.

(** ** What a successful plan tells *)

Lemma target_plan_inv d g s ts th (p : Plan) :
  target_plan d g s ts th = Ok p ->
  exists x gq,
    resolve_start d s ts = Ok (Some (start_date p), x)
    /\ as_float x = Ok (start_value p)
    /\ g = Some gq
    /\ ~ (gq == 0)%Q
    /\ (if Qltb 0 gq then py.max th else py.min th) = Ok (end_value p)
    /\ end_date p =
       start_date p
       + 1000 * round_half_even
                  ((end_value p - start_value p) / gq
                   * inject_Z py.US_PER_DAY).
Proof.
  unfold target_plan. intros H.
  destruct (resolve_start d s ts) as [[d0 x]|] eqn:Hr; [|discriminate].
  cbn [bind] in H.
  destruct g as [gq|]; [|discriminate].
  destruct (if Qltb 0 gq then py.max th else py.min th) as [e|] eqn:He;
    [|discriminate].
  cbn [bind] in H.
  exists x, gq.
  assert (Hfin : forall q,
            bind (py.timedelta (Finite q))
              (fun delta =>
                 match d0 with
                 | Some d1 =>
                     bind (pd.timestamp_add d1 delta)
                       (fun target_end_date =>
                          bind (as_float x)
                            (fun v0 =>
                               Ok {| start_date := d1; start_value := v0;
                                     end_value := e;
                                     end_date := target_end_date |}))
                 | None => Raise TypeError
                 end) = Ok p ->
            d0 = Some (start_date p)
            /\ as_float x = Ok (start_value p)
            /\ e = end_value p
            /\ end_date p =
               start_date p
               + 1000 * round_half_even (q * inject_Z py.US_PER_DAY)).
  { intros q Hq. unfold py.timedelta in Hq.
    destruct (Z.abs _ <=? py.MAX_DELTA_DAYS); [|discriminate].
    cbn [bind] in Hq. destruct d0 as [d1|]; [|discriminate].
    unfold pd.timestamp_add in Hq.
    destruct (negb (fits_int64 (1000 * _))); [discriminate|].
    destruct (negb (fits_int64 (d1 + _))); [discriminate|].
    cbn [bind] in Hq.
    destruct (as_float x) as [v0|]; [|discriminate].
    cbn [bind] in Hq. injection Hq as <-. cbn. repeat split; reflexivity. }
  destruct x as [q|q|vs]; cbn [rsub] in H; unfold true_divide in H.
  - destruct (Qeq_bool gq 0) eqn:Hz; [discriminate|].
    destruct (is_finite (e - q) && is_finite ((e - q) / gq));
      [|discriminate].
    cbn [bind] in H. apply Hfin in H.
    destruct H as (-> & Hx & -> & Hd).
    repeat split; try reflexivity; try assumption.
    + intros Heq. apply Qeq_bool_iff in Heq. congruence.
    + cbn [as_float] in Hx. injection Hx as <-. exact Hd.
  - destruct (Qeq_bool gq 0) eqn:Hz.
    + destruct (Qeq_bool (e - q) 0); discriminate.
    + destruct (is_finite (e - q) && is_finite ((e - q) / gq));
        [|discriminate].
      cbn [bind] in H. apply Hfin in H.
      destruct H as (-> & Hx & -> & Hd).
      repeat split; try reflexivity; try assumption.
      * intros Heq. apply Qeq_bool_iff in Heq. congruence.
      * cbn [as_float] in Hx. injection Hx as <-. exact Hd.
  - discriminate.
Qed.

Lemma get_target_plan d g s ts th (p : Plan) :
  target_plan d g s ts th = Ok p -> get_target d g s ts th = Ok (curve p).
Proof. unfold get_target. now intros ->. Qed.

Lemma get_target_thresholds d g s ts (ths : list Q) (c : Series) :
  get_target d g s ts (Some ths) = Ok c -> ths <> [].
Proof.
  unfold get_target, target_plan. intros H ->.
  destruct (resolve_start d s ts) as [[dd x]|]; [|discriminate].
  cbn [bind] in H. destruct g as [gq|]; [|discriminate].
  destruct (Qltb 0 gq); discriminate.
Qed.

Lemma get_target_inv d g s ts th (c : Series) :
  get_target d g s ts th = Ok c ->
  exists p, target_plan d g s ts th = Ok p /\ c = curve p.
Proof.
  unfold get_target.
  destruct (target_plan d g s ts th) as [p|]; [|discriminate].
  intros [= <-]. now exists p.
Qed.

(** ** The end points of the curve *)

(** C1, at the inputs where the code departs from it.  From
    2020-01-01 with start value 10, the one threshold 20 and gradient 4,
    the end date is 2020-01-03 12:00, while the curve has the three
    points of 1, 2 and 3 January with the values 10, 15 and 20: its last
    point is dated before the end date, and it rises by 5 a day, not
    by 4.  With gradient 100 the end date is less than a day after the
    start date, and the curve is the one point at the start date with
    the start value 10: it never reaches the end value 20. *)
Theorem get_target_misses_end_point :
  (exists p c,
     target_plan (Some (date 2020 1 1)) (Some 4%Q) (Some 10%Q) None
                 (Some [20%Q]) = Ok p
     /\ get_target (Some (date 2020 1 1)) (Some 4%Q) (Some 10%Q) None
                   (Some [20%Q]) = Ok c
     /\ end_date p = date 2020 1 3 + 12 * HOUR
     /\ end_value p = 20%Q
     /\ pd.index c = [date 2020 1 1; date 2020 1 2; date 2020 1 3]
     /\ Forall2 Qeq (pd.values c) [10%Q; 15%Q; 20%Q]
     /\ last_item c <> Ok (end_date p, end_value p))
  /\ (exists p c,
        target_plan (Some (date 2020 1 1)) (Some 100%Q) (Some 10%Q) None
                    (Some [20%Q]) = Ok p
        /\ get_target (Some (date 2020 1 1)) (Some 100%Q) (Some 10%Q) None
                      (Some [20%Q]) = Ok c
        /\ end_date p = date 2020 1 1 + 144 * (HOUR / 60)
        /\ end_value p = 20%Q
        /\ c = [(date 2020 1 1, 10%Q)]
        /\ last_item c <> Ok (end_date p, end_value p)).
Proof.
  split.
  - eexists. eexists.
    split; [vm_compute; reflexivity|].
    split; [vm_compute; reflexivity|].
    split; [vm_compute; reflexivity|].
    split; [vm_compute; reflexivity|].
    split; [vm_compute; reflexivity|].
    split; [|vm_compute; discriminate].
    vm_compute. repeat (constructor; [reflexivity|]). constructor.
  - eexists. eexists.
    split; [vm_compute; reflexivity|].
    split; [vm_compute; reflexivity|].
    split; [vm_compute; reflexivity|].
    split; [vm_compute; reflexivity|].
    split; [vm_compute; reflexivity|].
    vm_compute. discriminate.
Qed.

(** ** Rounding *)

Lemma round_half_even_bounds (x : Q) :
  (inject_Z (round_half_even x) - (1 # 2) <= x
   /\ x <= inject_Z (round_half_even x) + (1 # 2))%Q.
Proof.
  unfold round_half_even. cbv zeta.
  pose proof (Qfloor_le x) as Hlo.
  pose proof (Qlt_floor x) as Hhi.
  rewrite inject_Z_plus in Hhi.
  change (inject_Z 1) with 1%Q in *.
  destruct (Qcompare_spec (x - inject_Z (Qfloor x)) (1 # 2)) as [E|E|E];
    [destruct (Z.even (Qfloor x))| |];
    rewrite ?inject_Z_plus; change (inject_Z 1) with 1%Q;
    set (f := inject_Z (Qfloor x)) in *; clearbody f; split; lra.
Qed.

Lemma round_half_even_pos (x : Q) :
  1 <= round_half_even x -> (0 < x)%Q.
Proof.
  intros H. pose proof (round_half_even_bounds x) as [Hlo _].
  assert (Hq : (inject_Z 1 <= inject_Z (round_half_even x))%Q)
    by (rewrite <- Zle_Qle; exact H).
  change (inject_Z 1) with 1%Q in Hq. lra.
Qed.

(** ** Direction of the curve *)

Lemma plan_direction d g s ts th (p : Plan) (gq : Q) :
  target_plan d g s ts th = Ok p ->
  g = Some gq ->
  start_date p + DAY <= end_date p ->
  ((0 < gq)%Q -> (start_value p <= end_value p)%Q)
  /\ ((gq < 0)%Q -> (end_value p <= start_value p)%Q).
Proof.
  intros Hp Hg Hday.
  destruct (target_plan_inv _ _ _ _ _ _ Hp)
    as (x & gq' & _ & _ & Hg' & Hnz & _ & Hd).
  assert (gq' = gq) by congruence. subst gq'.
  set (r := ((end_value p - start_value p) / gq)%Q) in *.
  assert (Hpos : (0 < r * inject_Z py.US_PER_DAY)%Q).
  { apply round_half_even_pos. unfold DAY in Hday. lia. }
  assert (Hr : (0 < r)%Q).
  { assert (Hu : (0 < inject_Z py.US_PER_DAY)%Q) by reflexivity.
    destruct (Qlt_le_dec 0 r) as [Hlt|Hge]; [assumption|].
    exfalso.
    assert ((r * inject_Z py.US_PER_DAY <= 0 * inject_Z py.US_PER_DAY)%Q)
      by (apply Qmult_le_compat_r; [assumption | apply Qlt_le_weak, Hu]).
    lra. }
  assert (Heq : (end_value p - start_value p == r * gq)%Q)
    by (unfold r; field; assumption).
  split; intros Hsign.
  - assert ((0 < r * gq)%Q) by (apply Qmult_lt_0_compat; assumption).
    lra.
  - assert ((0 < r * (- gq))%Q)
      by (apply Qmult_lt_0_compat; [assumption | lra]).
    assert ((r * (- gq) == - (r * gq))%Q) by ring.
    lra.
Qed.

(** ** Monotone spacing *)

Lemma StronglySorted_map_seq {A : Type} (R : A -> A -> Prop)
    (f : nat -> A) (s k : nat) :
  (forall i j, (s <= i)%nat -> (i < j)%nat -> (j < s + k)%nat ->
               R (f i) (f j)) ->
  StronglySorted R (map f (seq s k)).
Proof.
  revert s. induction k as [|k IH]; intros s H; cbn [seq map].
  - constructor.
  - constructor.
    + apply IH. intros i j Hi Hij Hj. apply H; lia.
    + apply Forall_forall. intros y Hy.
      apply in_map_iff in Hy. destruct Hy as (j & <- & Hj).
      apply in_seq in Hj. apply H; lia.
Qed.

Lemma StronglySorted_snoc {A : Type} (R : A -> A -> Prop)
    (l : list A) (b : A) :
  StronglySorted R l -> Forall (fun x => R x b) l ->
  StronglySorted R (l ++ [b]).
Proof.
  induction 1 as [|a l Hs IH Ha]; intros Hb; cbn [app].
  - constructor; constructor.
  - inversion Hb; subst. constructor.
    + now apply IH.
    + apply Forall_app. split; [assumption|]. now constructor.
Qed.

Lemma inject_succ_nonzero (m : nat) :
  ~ (inject_Z (Z.of_nat (S m)) == 0)%Q.
Proof.
  intros H. unfold Qeq in H. cbn [Qnum Qden inject_Z] in H. lia.
Qed.

Lemma linspace_step_le (a b : Q) (m i j : nat) :
  (a <= b)%Q -> (i <= j)%nat ->
  (inject_Z (Z.of_nat i) * ((b - a) / inject_Z (Z.of_nat (S m))) + a
   <= inject_Z (Z.of_nat j) * ((b - a) / inject_Z (Z.of_nat (S m))) + a)%Q.
Proof.
  intros Hab Hij.
  assert (Hm : (0 < inject_Z (Z.of_nat (S m)))%Q).
  { change 0%Q with (inject_Z 0). rewrite <- Zlt_Qlt. lia. }
  assert (Hstep : (0 <= (b - a) / inject_Z (Z.of_nat (S m)))%Q).
  { apply Qle_shift_div_l; [assumption|]. lra. }
  assert (Hq : (inject_Z (Z.of_nat i) <= inject_Z (Z.of_nat j))%Q)
    by (rewrite <- Zle_Qle; lia).
  apply Qplus_le_l. apply Qmult_le_compat_r; assumption.
Qed.

Lemma linspace_stop (a b : Q) (m : nat) :
  (inject_Z (Z.of_nat (S m)) * ((b - a) / inject_Z (Z.of_nat (S m))) + a
   == b)%Q.
Proof.
  field. apply inject_succ_nonzero.
Qed.

Lemma linspace_increasing (a b : Q) (n : nat) :
  (a <= b)%Q -> StronglySorted Qle (np.linspace a b n).
Proof.
  intros Hab. destruct n as [|[|m]].
  - constructor.
  - repeat constructor.
  - rewrite linspace_two. apply StronglySorted_snoc.
    + apply StronglySorted_map_seq. intros i j _ Hij _.
      apply linspace_step_le; [assumption | lia].
    + apply Forall_forall. intros y Hy.
      apply in_map_iff in Hy. destruct Hy as (i & <- & Hi).
      apply in_seq in Hi.
      rewrite <- (linspace_stop a b m) at 2.
      apply linspace_step_le; [assumption | lia].
Qed.

Lemma linspace_opp (a b : Q) (m i : nat) :
  (- (inject_Z (Z.of_nat i) * ((b - a) / inject_Z (Z.of_nat (S m))) + a)
   == inject_Z (Z.of_nat i) * ((- b - - a) / inject_Z (Z.of_nat (S m)))
      + - a)%Q.
Proof.
  field. apply inject_succ_nonzero.
Qed.

Lemma linspace_decreasing (a b : Q) (n : nat) :
  (b <= a)%Q -> StronglySorted (fun x y => (y <= x)%Q) (np.linspace a b n).
Proof.
  intros Hab. destruct n as [|[|m]].
  - constructor.
  - repeat constructor.
  - assert (Hab' : (- a <= - b)%Q) by lra.
    rewrite linspace_two. apply StronglySorted_snoc.
    + apply StronglySorted_map_seq. intros i j _ Hij _.
      pose proof (linspace_step_le (- a) (- b) m i j Hab'
                    ltac:(lia)) as H.
      rewrite <- !linspace_opp in H. lra.
    + apply Forall_forall. intros y Hy.
      apply in_map_iff in Hy. destruct Hy as (i & <- & Hi).
      apply in_seq in Hi.
      pose proof (linspace_step_le (- a) (- b) m i (S m) Hab'
                    ltac:(lia)) as H.
      rewrite <- !linspace_opp in H.
      rewrite (linspace_stop a b m) in H. lra.
Qed.

(** ** Calendar days *)

Lemma date_range_calendar_days (start stop : Timestamp) :
  start mod DAY = 0 ->
  map calendar_day (pd.date_range start stop) =
  days_between (calendar_day start) (calendar_day stop).
Proof.
  intros Hmid. pose proof DAY_pos as HD.
  assert (Hs : start = DAY * (start / DAY)).
  { pose proof (Z.div_mod start DAY ltac:(lia)). lia. }
  unfold calendar_day, days_between.
  destruct (Z_lt_le_dec stop start) as [Hlt|Hle].
  - rewrite date_range_empty by assumption.
    assert (stop / DAY < start / DAY)
      by (apply Z.div_lt_upper_bound; lia).
    replace (Z.to_nat (stop / DAY - start / DAY + 1)) with 0%nat by lia.
    reflexivity.
  - rewrite date_range_steps by assumption.
    assert (Hq : (stop - start) / DAY = stop / DAY - start / DAY).
    { replace (stop - start) with (stop + (- (start / DAY)) * DAY) by lia.
      rewrite Z.div_add by lia. lia. }
    assert (0 <= (stop - start) / DAY) by (apply Z.div_pos; lia).
    unfold whole_days.
    replace (Z.to_nat (stop / DAY - start / DAY + 1))
      with (S (Z.to_nat ((stop - start) / DAY))) by lia.
    rewrite map_map. apply map_ext. intros k.
    rewrite Z.div_add by lia. reflexivity.
Qed.

(** C4, as stated, fails: starting at 18:00 on 2020-01-01 with start
    value 10, the one threshold 20 and gradient 4, the end date falls
    on 2020-01-04 and the curve has points on the first three days of
    January only. *)
Lemma get_target_calendar_day_counterexample :
  exists p c,
    target_plan (Some (date 2020 1 1 + 18 * HOUR)) (Some 4%Q) (Some 10%Q)
                None (Some [20%Q]) = Ok p
    /\ get_target (Some (date 2020 1 1 + 18 * HOUR)) (Some 4%Q)
                  (Some 10%Q) None (Some [20%Q]) = Ok c
    /\ calendar_day (start_date p) = days_from_civil 2020 1 1
    /\ calendar_day (end_date p) = days_from_civil 2020 1 4
    /\ map calendar_day (pd.index c) =
       [days_from_civil 2020 1 1; days_from_civil 2020 1 2;
        days_from_civil 2020 1 3]
    /\ ~ In (calendar_day (end_date p)) (map calendar_day (pd.index c)).
Proof.
  eexists. eexists.
  split; [vm_compute; reflexivity|].
  split; [vm_compute; reflexivity|].
  split; [vm_compute; reflexivity|].
  split; [vm_compute; reflexivity|].
  split; [vm_compute; reflexivity|].
  vm_compute. intros [H|[H|[H|[]]]]; discriminate.
Qed.

(** C4, amended: when [get_target] returns, the curve has one point
    every 24 hours from the start date on, for as long as the end date
    is not passed; with a start date at midnight that is exactly one
    point per calendar day from the day of the start date to the day of
    the end date, both included.  The values never decrease for a
    positive gradient and never increase for a negative one. *)
Theorem get_target_daily_monotone d g s ts th (p : Plan) :
  target_plan d g s ts th = Ok p ->
  get_target d g s ts th = Ok (curve p)
  /\ length (curve p) =
     (if end_date p <? start_date p then 0%nat
      else S (whole_days (start_date p) (end_date p)))
  /\ pd.index (curve p) =
     map (fun k => start_date p + Z.of_nat k * DAY)
         (seq 0 (length (curve p)))
  /\ (start_date p mod DAY = 0 ->
      map calendar_day (pd.index (curve p)) =
      days_between (calendar_day (start_date p))
                   (calendar_day (end_date p)))
  /\ exists gq, g = Some gq
       /\ ((0 < gq)%Q -> StronglySorted Qle (pd.values (curve p)))
       /\ ((gq < 0)%Q ->
           StronglySorted (fun a b => (b <= a)%Q) (pd.values (curve p))).
Proof.
  intros Hp.
  split; [now apply get_target_plan|].
  assert (Hlen : length (curve p) =
     (if end_date p <? start_date p then 0%nat
      else S (whole_days (start_date p) (end_date p)))).
  { rewrite curve_length.
    destruct (Z.ltb_spec (end_date p) (start_date p)).
    - now rewrite date_range_empty.
    - now apply date_range_length. }
  split; [exact Hlen|].
  split.
  { rewrite Hlen, curve_index.
    destruct (Z.ltb_spec (end_date p) (start_date p)).
    - now rewrite date_range_empty.
    - now apply date_range_steps. }
  split.
  { intros Hmid. rewrite curve_index.
    now apply date_range_calendar_days. }
  destruct (target_plan_inv _ _ _ _ _ _ Hp)
    as (x & gq & _ & _ & Hg & _ & _ & _).
  exists gq. split; [assumption|].
  rewrite curve_values.
  destruct (Z_lt_le_dec (end_date p) (start_date p)) as [Hlt|Hle].
  { rewrite date_range_empty by assumption.
    split; intros _; constructor. }
  rewrite date_range_length by assumption.
  destruct (whole_days (start_date p) (end_date p)) as [|n] eqn:E.
  { split; intros _; repeat constructor. }
  assert (Hday : start_date p + DAY <= end_date p).
  { pose proof (whole_days_bound _ _ Hle) as [Hlo _].
    rewrite E in Hlo. pose proof DAY_pos. nia. }
  destruct (plan_direction _ _ _ _ _ _ _ Hp Hg Hday) as [Hup Hdown].
  split; intros Hsign.
  - apply linspace_increasing. now apply Hup.
  - apply linspace_decreasing. now apply Hdown.
Qed.

Lemma get_target_daily_monotone_witness :
  exists p,
    target_plan (Some (date 2020 1 1)) (Some 4%Q) (Some 10%Q) None
                (Some [20%Q]) = Ok p
    /\ length (curve p) = 3%nat
    /\ StronglySorted Qle (pd.values (curve p)).
Proof.
  eexists. split; [vm_compute; reflexivity|].
  match goal with
  | |- context [curve ?p] =>
      destruct (get_target_daily_monotone
                  (Some (date 2020 1 1)) (Some 4%Q) (Some 10%Q) None
                  (Some [20%Q]) p)
        as (_ & Hlen & _ & _ & gq & Hg & Hup & _)
  end.
  - vm_compute; reflexivity.
  - split; [rewrite Hlen; vm_compute; reflexivity|].
    apply Hup. injection Hg as <-. reflexivity.
Defined.

(** ** argmin *)

Lemma argmin_from_spec (l : list Z) :
  forall (pre : list Z) (bi : nat) (b : Z),
    nth_error pre bi = Some b ->
    Forall (fun t => b <= t) pre ->
    (forall j t, (j < bi)%nat -> nth_error pre j = Some t -> b < t) ->
    let r := np.argmin_from bi b (length pre) l in
    exists m,
      nth_error (pre ++ l) r = Some m
      /\ Forall (fun t => m <= t) (pre ++ l)
      /\ (forall j t, (j < r)%nat -> nth_error (pre ++ l) j = Some t ->
                      m < t).
Proof.
  induction l as [|x l IH]; intros pre bi b Hb Hall Hfirst;
    cbn [np.argmin_from].
  - exists b. rewrite app_nil_r. repeat split; assumption.
  - assert (Hbi : (bi < length pre)%nat)
      by (apply nth_error_Some; congruence).
    assert (Hlen : length (pre ++ [x]) = S (length pre))
      by (rewrite length_app; simpl; lia).
    cbv zeta.
    replace (pre ++ x :: l) with ((pre ++ [x]) ++ l)
      by (rewrite <- app_assoc; reflexivity).
    rewrite <- Hlen.
    destruct (Z.ltb_spec x b) as [Hlt|Hge].
    + apply (IH (pre ++ [x]) (length pre) x).
      * rewrite nth_error_app2 by lia. now rewrite Nat.sub_diag.
      * apply Forall_app. split.
        -- eapply Forall_impl; [|exact Hall]. cbv beta. intros; lia.
        -- constructor; [lia | constructor].
      * intros j t Hj Ht. rewrite nth_error_app1 in Ht by lia.
        rewrite Forall_forall in Hall.
        apply nth_error_In in Ht. specialize (Hall _ Ht). lia.
    + apply (IH (pre ++ [x]) bi b).
      * rewrite nth_error_app1 by lia. assumption.
      * apply Forall_app. split; [assumption|].
        constructor; [lia | constructor].
      * intros j t Hj Ht. rewrite nth_error_app1 in Ht by lia.
        eapply Hfirst; eassumption.
Qed.

Lemma argmin_spec (l : list Z) :
  l <> [] ->
  exists r m,
    np.argmin l = Ok r
    /\ nth_error l r = Some m
    /\ Forall (fun t => m <= t) l
    /\ (forall j t, (j < r)%nat -> nth_error l j = Some t -> m < t).
Proof.
  destruct l as [|x l]; [congruence|]. intros _.
  destruct (argmin_from_spec l [x] 0%nat x) as (m & H1 & H2 & H3).
  - reflexivity.
  - constructor; [lia | constructor].
  - intros j t Hj. lia.
  - exists (np.argmin_from 0 x 1 l), m. repeat split; assumption.
Qed.

(** ** Indexing a series by date *)

Lemma filter_none {A : Type} (f : A -> bool) (l : list A) :
  (forall x, In x l -> f x = false) -> filter f l = [].
Proof.
  induction l as [|a l IH]; intros H; cbn [filter]; [reflexivity|].
  rewrite (H a) by now left. apply IH. intros x Hx. apply H. now right.
Qed.

Lemma filter_unique_key (s : Series) (k : Timestamp) (v : Q) :
  NoDup (pd.index s) -> In (k, v) s ->
  filter (fun p => fst p =? k) s = [(k, v)].
Proof.
  unfold pd.index. induction s as [|[k' v'] s IH]; intros Hnd Hin.
  - destruct Hin.
  - cbn [map fst] in Hnd. inversion Hnd as [|? ? Hnotin Hnd']; subst.
    cbn [filter fst].
    destruct Hin as [Heq|Hin].
    + injection Heq as -> ->. rewrite Z.eqb_refl.
      apply (f_equal (cons (k, v))).
      apply filter_none. intros p Hp. apply Z.eqb_neq. intros <-.
      apply Hnotin. now apply in_map.
    + destruct (Z.eqb_spec k' k) as [->|Hne].
      * exfalso. apply Hnotin.
        change k with (fst (k, v)). now apply in_map.
      * now apply IH.
Qed.

(** ** The start of the curve *)

Lemma filter_key_length (s : Series) (k : Timestamp) :
  length (filter (fun p => fst p =? k) s)
  = count_occ Z.eq_dec (pd.index s) k.
Proof.
  unfold pd.index. induction s as [|[k' v] s IH]; [reflexivity|].
  cbn [filter map fst count_occ].
  destruct (Z.eqb_spec k' k) as [->|Hne].
  - destruct (Z.eq_dec k k); [|congruence]. cbn [length]. now rewrite IH.
  - destruct (Z.eq_dec k' k); [congruence|]. exact IH.
Qed.

Lemma filter_single (s : Series) (k : Timestamp) (v : Q) (a : Z * Q) :
  In (k, v) s ->
  filter (fun p => fst p =? k) s = [a] ->
  a = (k, v).
Proof.
  intros Hin Hf.
  assert (Hk : In (k, v) (filter (fun p => fst p =? k) s)).
  { apply filter_In. split; [assumption|]. apply Z.eqb_refl. }
  rewrite Hf in Hk. destruct Hk as [Hk|[]]. exact Hk.
Qed.

Lemma getitem_once (s : Series) (k : Timestamp) (v : Q) :
  In (k, v) s ->
  count_occ Z.eq_dec (pd.index s) k = 1%nat ->
  pd.getitem s k = Ok (NpNum v).
Proof.
  intros Hin Hc. rewrite <- filter_key_length in Hc. unfold pd.getitem.
  destruct (filter (fun p => fst p =? k) s) as [|a [|b l]] eqn:E;
    try discriminate.
  rewrite (filter_single s k v a Hin E). reflexivity.
Qed.


Lemma getitem_repeated (s : Series) (k : Timestamp) (x : scalar) :
  (2 <= count_occ Z.eq_dec (pd.index s) k)%nat ->
  pd.getitem s k = Ok x ->
  exists vs, x = SubSeries vs /\ (2 <= length vs)%nat.
Proof.
  intros Hc Hg. rewrite <- filter_key_length in Hc. unfold pd.getitem in Hg.
  destruct (filter (fun p => fst p =? k) s) as [|a [|b l]] eqn:E;
    cbn [map length] in *; try lia.
  injection Hg as <-. eexists. split; [reflexivity|]. cbn. lia.
Qed.

Lemma index_sub_ok (idx : list Timestamp) (d : Timestamp) :
  Forall (fun t => Z.abs (t - d) <= INT64_MAX) idx ->
  pd.index_sub idx d = Ok (map (fun t => t - d) idx).
Proof.
  intros H. unfold pd.index_sub.
  replace (forallb (fun t => fits_int64 (t - d)) idx) with true;
    [reflexivity|].
  symmetry. apply forallb_forall. intros t Ht.
  rewrite Forall_forall in H. apply Z.leb_le. now apply H.
Qed.

Lemma index_sub_inv (idx : list Timestamp) (d : Timestamp) (l : list Z) :
  pd.index_sub idx d = Ok l -> l = map (fun t => t - d) idx.
Proof.
  unfold pd.index_sub. destruct (forallb _ idx); [|discriminate].
  now intros [= <-].
Qed.

Lemma resolve_start_spec (s : Series) (d : Timestamp) :
  s <> [] ->
  Forall (fun t => Z.abs (t - d) <= INT64_MAX) (pd.index s) ->
  exists idx d' v x,
    nth_error s idx = Some (d', v)
    /\ (forall j t, nth_error (pd.index s) j = Some t ->
                    Z.abs (d' - d) <= Z.abs (t - d))
    /\ (forall j t, (j < idx)%nat -> nth_error (pd.index s) j = Some t ->
                    Z.abs (d' - d) < Z.abs (t - d))
    /\ resolve_start (Some d) None (Some s) = Ok (Some d', x)
    /\ pd.getitem s d' = Ok x.
Proof.
  intros Hne Hfit.
  set (dist := fun t => Z.abs (t - d)).
  destruct (argmin_spec (map dist (pd.index s)))
    as (r & m & Harg & Hnth & Hmin & Hfirst).
  { destruct s; [congruence | discriminate]. }
  rewrite nth_error_map in Hnth.
  destruct (nth_error (pd.index s) r) as [d'|] eqn:Hd';
    cbn [option_map] in Hnth; [|discriminate].
  injection Hnth as <-.
  unfold pd.index in Hd'. rewrite nth_error_map in Hd'.
  destruct (nth_error s r) as [[k v]|] eqn:Hs;
    cbn [option_map fst] in Hd'; [|discriminate].
  injection Hd' as <-.
  assert (Hin : In (k, v) s) by (eapply nth_error_In; eassumption).
  assert (Hget : exists x, pd.getitem s k = Ok x).
  { unfold pd.getitem.
    assert (Hk : In (k, v) (filter (fun p => fst p =? k) s)).
    { apply filter_In. split; [assumption|]. apply Z.eqb_refl. }
    destruct (filter (fun p => fst p =? k) s) as [|a [|b l]];
      [destruct Hk | eexists; reflexivity | eexists; reflexivity]. }
  destruct Hget as (x & Hget).
  exists r, k, v, x. split; [exact Hs|].
  split.
  { intros j t Ht. rewrite Forall_forall in Hmin. apply (Hmin (dist t)).
    apply in_map. eapply nth_error_In; eassumption. }
  split.
  { intros j t Hj Ht. apply (Hfirst j (dist t) Hj).
    rewrite nth_error_map, Ht. reflexivity. }
  split; [|exact Hget].
  unfold resolve_start. cbn [bind].
  rewrite (index_sub_ok _ _ Hfit). cbn [bind].
  rewrite map_map. fold dist. rewrite Harg. cbn [bind].
  unfold py.getitem, pd.index. rewrite nth_error_map, Hs.
  cbn [option_map fst bind]. rewrite Hget. reflexivity.
Qed.

Lemma resolve_start_inv d ts d0 (x : scalar) :
  resolve_start d None ts = Ok (d0, x) ->
  exists dd s d',
    d = Some dd /\ ts = Some s /\ d0 = Some d'
    /\ In d' (pd.index s) /\ pd.getitem s d' = Ok x.
Proof.
  unfold resolve_start. intros Hr.
  destruct ts as [s|]; [|discriminate]. cbn [bind] in Hr.
  destruct d as [dd|]; [|discriminate]. cbn [bind] in Hr.
  destruct (pd.index_sub (pd.index s) dd) as [diffs|]; [|discriminate].
  cbn [bind] in Hr.
  destruct (np.argmin _) as [idx|]; [|discriminate]. cbn [bind] in Hr.
  unfold py.getitem in Hr.
  destruct (nth_error (pd.index s) idx) as [d'|] eqn:Hd; [|discriminate].
  cbn [bind] in Hr.
  destruct (pd.getitem s d') as [v|] eqn:Hg; [|discriminate].
  cbn [bind] in Hr. injection Hr as <- <-.
  exists dd, s, d'. repeat split; try reflexivity; try assumption.
  eapply nth_error_In. eassumption.
Qed.

Lemma getitem_kind (s : Series) (k : Timestamp) (x : scalar) :
  pd.getitem s k = Ok x ->
  (exists q, x = NpNum q) \/ (exists vs, x = SubSeries vs).
Proof.
  unfold pd.getitem.
  destruct (map snd _) as [|v [|v' r]]; [discriminate| |];
    intros [= <-]; [left | right]; eexists; reflexivity.
Qed.




(** C6: thresholds 10 and 20, gradient 1, start value 10 and start
    date 2020-01-01 give the end value 20, the end date 2020-01-11 and a
    curve of 11 points. *)
Theorem get_target_ten_days (ts : option Series) :
  exists p c,
    target_plan (Some (date 2020 1 1)) (Some 1%Q) (Some 10%Q) ts
                (Some [10%Q; 20%Q]) = Ok p
    /\ get_target (Some (date 2020 1 1)) (Some 1%Q) (Some 10%Q) ts
                  (Some [10%Q; 20%Q]) = Ok c
    /\ end_value p = 20%Q
    /\ end_date p = date 2020 1 11
    /\ length c = 11%nat
    /\ last_item c = Ok (date 2020 1 11, 20%Q).
Proof.
  eexists. eexists.
  split; [vm_compute; reflexivity|].
  split; [vm_compute; reflexivity|].
  repeat split; vm_compute; reflexivity.
Qed.

(** ** Unvalidated arguments *)

(** C7, as stated, fails: with the start value read from the series,
    a zero gradient ends in an overflow error, not in a division by
    zero. *)
Lemma get_target_zero_gradient_counterexample :
  get_target (Some (date 2020 1 1)) (Some 0%Q) None
             (Some [(date 2020 1 1, 5%Q)]) (Some [20%Q])
  = Raise OverflowError
  /\ get_target (Some (date 2020 1 1)) (Some 0%Q) None
                (Some [(date 2020 1 1, 5%Q)]) (Some [20%Q])
     <> Raise ZeroDivisionError.
Proof.
  split; [vm_compute; reflexivity | vm_compute; discriminate].
Qed.

(** C7, amended: once the start is settled, an empty threshold list
    makes [get_target] fail with the empty-sequence error of max/min.  A
    zero gradient with thresholds makes it fail too: with a division by
    zero when [target_start] was given, and otherwise, the start value
    being a numpy scalar read from the series, with the overflow error
    (or, for a zero numerator, the value error) of the time offset built
    from the infinite (or undefined) quotient.  Nothing checks either
    condition beforehand. *)
Theorem get_target_unvalidated d g s ts th d0 (x : scalar) :
  resolve_start d s ts = Ok (d0, x) ->
  (forall gq, g = Some gq -> th = Some [] ->
     get_target d g s ts th = Raise ValueError)
  /\ (forall gq m, g = Some gq -> (gq == 0)%Q -> py.min th = Ok m ->
        get_target d g s ts th = Raise (zero_gradient_error x m))
  /\ (forall v, s = Some v -> x = PyNum v)
  /\ (s = None -> exists q, x = NpNum q \/ exists vs, x = SubSeries vs).
Proof.
  intros Hr. split; [|split; [|split]].
  - intros gq -> ->. unfold get_target, target_plan. rewrite Hr.
    cbn [bind]. destruct (Qltb 0 gq); reflexivity.
  - intros gq m -> Hz Hm. unfold get_target, target_plan. rewrite Hr.
    cbn [bind].
    assert (Hlt : Qltb 0 gq = false) by (apply Qltb_ge; lra).
    rewrite Hlt, Hm. cbn [bind].
    apply Qeq_bool_iff in Hz.
    destruct x as [q|q|vs]; cbn [rsub true_divide zero_gradient_error];
      rewrite ?Hz; cbn [bind py.timedelta]; try reflexivity.
    destruct (Qeq_bool (m - q) 0); reflexivity.
  - intros v ->. cbn in Hr. now injection Hr as _ <-.
  - intros ->. apply resolve_start_inv in Hr.
    destruct Hr as (dd & series & d' & _ & _ & _ & _ & Hg).
    destruct (getitem_kind _ _ _ Hg) as [(q & ->) | (vs & ->)].
    + exists q. now left.
    + exists 0%Q. right. now exists vs.
Qed.

Lemma get_target_unvalidated_witness :
  get_target (Some (date 2020 1 1)) (Some 0%Q) (Some 10%Q) None (Some [])
  = Raise ValueError
  /\ get_target (Some (date 2020 1 1)) (Some 0%Q) (Some 10%Q) None
                (Some [20%Q])
     = Raise ZeroDivisionError.
Proof.
  split.
  - refine (proj1 (get_target_unvalidated
                     (Some (date 2020 1 1)) (Some 0%Q) (Some 10%Q) None
                     (Some []) (Some (date 2020 1 1)) (PyNum 10)
                     eq_refl) 0%Q eq_refl eq_refl).
  - refine (proj1 (proj2 (get_target_unvalidated
                     (Some (date 2020 1 1)) (Some 0%Q) (Some 10%Q) None
                     (Some [20%Q]) (Some (date 2020 1 1)) (PyNum 10)
                     eq_refl)) 0%Q 20%Q eq_refl _ eq_refl).
    reflexivity.
Defined.

(** ** Independence of the series *)

(** C10: with [target_start] given, the observed series has no part
    in the result. *)
Theorem get_target_ignores_series d g (v : Q) (ts1 ts2 : option Series) th :
  get_target d g (Some v) ts1 th = get_target d g (Some v) ts2 th.
Proof. reflexivity. Qed.

(** ** Rolling and expanding means *)

Lemma nth_error_map_seq {A : Type} (f : nat -> A) (n i : nat) :
  (i < n)%nat -> nth_error (map f (seq 0 n)) i = Some (f i).
Proof.
  intros H. rewrite nth_error_map.
  rewrite (nth_error_nth' (seq 0 n) 0%nat) by now rewrite length_seq.
  rewrite seq_nth by assumption. reflexivity.
Qed.











Lemma is_finite_half (q : Q) :
  (Qabs q <= HALF_RANGE)%Q -> is_finite q = true.
Proof.
  intros H. unfold is_finite. apply Qltb_lt.
  apply Qle_lt_trans with HALF_RANGE; [assumption | reflexivity].
Qed.







(** ** Files *)

Lemma lookup_remove_file (name : string) (fs : list (string * Rows)) :
  lookup_file name (remove_file name fs) = None.
Proof.
  induction fs as [|[n rows] fs IH]; [reflexivity|].
  cbn [remove_file]. destruct (String.eqb n name) eqn:E; [exact IH|].
  cbn [lookup_file]. now rewrite E.
Qed.


(** ** The loop over the thresholds *)

Lemma drawn_nil (w : World) : drawn w [] = w.
Proof.
  destruct w as [fs out [ls lg yl xl] sv]. unfold drawn. cbn.
  now rewrite app_nil_r.
Qed.

Lemma drawn_drawn (w : World) (l1 l2 : list Line) :
  drawn (drawn w l1) l2 = drawn w (l1 ++ l2).
Proof. unfold drawn. cbn. now rewrite app_assoc. Qed.

Lemma plot_ok (E : Env) x0 x1 (t : Q) (c n : string) (w : World) :
  is_color E c = true ->
  plt.plot E [x0; x1] [t; t] "--" (Some c) (Some n) w
  = (drawn w [threshold_line x0 x1 t c n], Ok tt).
Proof. unfold plt.plot. now intros ->. Qed.

Lemma plot_raise (E : Env) x0 x1 (t : Q) (c n : string) (w : World) :
  is_color E c = false ->
  plt.plot E [x0; x1] [t; t] "--" (Some c) (Some n) w
  = (w, Raise ValueError).
Proof. unfold plt.plot. now intros ->. Qed.

Lemma plot_threshold_ok (E : Env) x0 x1 names colours (i : nat) (th : Q)
    (w w' : World) :
  plot_threshold E [x0; x1] names colours i th w = (w', Ok tt) ->
  exists c n,
    py.getitem colours i = Ok c /\ py.getitem names i = Ok n
    /\ w' = drawn w [threshold_line x0 x1 th c n].
Proof.
  unfold plot_threshold, mbind, lift.
  destruct (py.getitem colours i) as [c|]; [|discriminate].
  destruct (py.getitem names i) as [n|]; [|discriminate].
  destruct (is_color E c) eqn:Ec.
  - rewrite (plot_ok E x0 x1 th c n w Ec).
    intros [= <-]. exists c, n. repeat split; reflexivity.
  - rewrite (plot_raise E x0 x1 th c n w Ec). discriminate.
Qed.


Lemma for_enumerate_ok (E : Env) x0 x1 names colours (ths : list Q) :
  forall (i : nat) (w w' : World),
    for_enumerate i ths (plot_threshold E [x0; x1] names colours) w
    = (w', Ok tt) ->
    exists added,
      w' = drawn w added
      /\ length added = length ths
      /\ forall k th, nth_error ths k = Some th ->
           exists c n,
             py.getitem colours (i + k) = Ok c
             /\ py.getitem names (i + k) = Ok n
             /\ nth_error added k = Some (threshold_line x0 x1 th c n).
Proof.
  induction ths as [|t ths IH]; intros i w w' H; cbn [for_enumerate] in H.
  - injection H as <-. exists []. split; [now rewrite drawn_nil|].
    split; [reflexivity|]. intros [|k] th Hk; discriminate.
  - unfold mbind in H at 1.
    destruct (plot_threshold E [x0; x1] names colours i t w)
      as [w1 [[]|e]] eqn:H1; [|discriminate].
    apply plot_threshold_ok in H1. destruct H1 as (c & n & Hc & Hn & ->).
    apply IH in H. destruct H as (added & -> & Hlen & Hnth).
    exists (threshold_line x0 x1 t c n :: added).
    split; [now rewrite drawn_drawn|].
    split; [cbn; lia|].
    intros [|k] th Hk.
    + injection Hk as <-. rewrite Nat.add_0_r. exists c, n.
      repeat split; assumption.
    + cbn [nth_error] in Hk. destruct (Hnth k th Hk) as (c' & n' & ? & ? & ?).
      exists c', n'. replace (i + S k)%nat with (S i + k)%nat by lia.
      repeat split; assumption.
Qed.


(** ** What a successful run of work leaves behind *)

(** What [work] does once the threshold lines are drawn comes down to
    saving the finished figure. *)
Lemma work_tail (E : Env) (png label : string) (ts target : Series)
    (w1 : World) :
  (series_plot (observed ts) "b."%string None None ;;;
   series_plot (win.mean (win.rolling ts 7 None)) "b-"%string None
               (Some "Rolling weekly average"%string) ;;;
   series_plot (win.mean (win.expanding ts)) "b-"%string None
               (Some "Running average"%string) ;;;
   series_plot (observed target) "--"%string (Some "grey"%string) None ;;;
   plt.legend "small"%string "lower left"%string ;;;
   plt.ylabel label ;;;
   plt.xlabel "Date"%string ;;;
   plt.savefig E png 200)%io w1
  = plt.savefig E png 200
      {| files := files w1; stdout := stdout w1;
         gcf := finished (gcf w1) (traces ts target) label;
         saved := saved w1 |}.
Proof.
  unfold mbind, series_plot, plt.add_line, plt.legend, plt.ylabel,
    plt.xlabel, update_figure.
  cbn [gcf files stdout saved fig_lines fig_legend fig_ylabel fig_xlabel].
  unfold finished, traces. rewrite <- !app_assoc. reflexivity.
Qed.

Lemma savefig_ok_inv (E : Env) (png : string) (dpi : Z) (w w' : World) :
  plt.savefig E png dpi w = (w', Ok tt) ->
  saving E png (gcf w) = Written
  /\ w' = {| files := remove_file png (files w); stdout := stdout w;
             gcf := gcf w; saved := saved w ++ [(png, dpi, gcf w)] |}.
Proof.
  unfold plt.savefig. destruct (saving E png (gcf w)); [|discriminate..].
  intros [= <-]. split; reflexivity.
Qed.

Lemma savefig_raise_inv (E : Env) (png : string) (dpi : Z) (w w' : World)
    (e : exn) :
  plt.savefig E png dpi w = (w', Raise e) ->
  saved w' = saved w /\ stdout w' = stdout w /\ gcf w' = gcf w
  /\ ((saving E png (gcf w) = Refused e /\ files w' = files w)
      \/ exists emptied,
           saving E png (gcf w) = Broken e emptied
           /\ lookup_file png (files w')
              = if emptied then Some [] else None).
Proof.
  unfold plt.savefig. destruct (saving E png (gcf w)) as [|e1|e1 b];
    [discriminate| |]; intros [= <- <-];
    (split; [reflexivity|]); (split; [reflexivity|]);
    (split; [reflexivity|]).
  - left. split; reflexivity.
  - right. exists b. split; [reflexivity|]. cbn [files].
    destruct b.
    + cbn [lookup_file]. now rewrite String.eqb_refl.
    + apply lookup_remove_file.
Qed.

Lemma work_ok_inv (E : Env) name png th names colours label s d g
    (w w' : World) :
  work E name png th names colours label s d g w = (w', Ok tt) ->
  exists rows target ths a0 b0 a1 b1 added,
    lookup_file name (files w) = Some rows
    /\ rows <> []
    /\ get_target d g None (Some (series_of_rows rows)) th = Ok target
    /\ th = Some ths
    /\ first_item (pd.index (series_of_rows rows)) = Ok a0
    /\ first_item (pd.index target) = Ok b0
    /\ last_item (pd.index (series_of_rows rows)) = Ok a1
    /\ last_item (pd.index target) = Ok b1
    /\ length added = length ths
    /\ (forall k t, nth_error ths k = Some t ->
          exists c n,
            py.getitem colours k = Ok c /\ py.getitem names k = Ok n
            /\ nth_error added k =
               Some (threshold_line (Z.min a0 b0) (Z.max a1 b1) t c n))
    /\ w' =
       {| files := remove_file png (files w); stdout := stdout w;
          gcf := finished (gcf w)
                   (added ++ traces (series_of_rows rows) target) label;
          saved := saved w
                   ++ [(png, 200,
                        finished (gcf w)
                          (added ++ traces (series_of_rows rows) target)
                          label)] |}.
Proof.
  unfold work. unfold mbind at 1. unfold try_reraise, read_csv.
  destruct (lookup_file name (files w)) as [[|row rows]|] eqn:Hf;
    try discriminate.
  set (ts := series_of_rows (row :: rows)).
  unfold mbind at 1. unfold lift at 1.
  destruct (get_target d g None (Some ts) th) as [target|] eqn:Ht;
    [|discriminate].
  unfold mbind at 1. unfold lift at 1.
  destruct (first_item (pd.index ts)) as [a0|] eqn:Ha0; [|discriminate].
  unfold mbind at 1. unfold lift at 1.
  destruct (first_item (pd.index target)) as [b0|] eqn:Hb0; [|discriminate].
  unfold mbind at 1. unfold lift at 1.
  destruct (last_item (pd.index ts)) as [a1|] eqn:Ha1; [|discriminate].
  unfold mbind at 1. unfold lift at 1.
  destruct (last_item (pd.index target)) as [b1|] eqn:Hb1; [|discriminate].
  unfold mbind at 1. unfold lift at 1.
  destruct th as [ths|]; [|discriminate].
  unfold mbind at 1.
  destruct (for_enumerate 0 ths _ w) as [w1 [[]|e]] eqn:Hloop;
    [|discriminate].
  apply for_enumerate_ok in Hloop.
  destruct Hloop as (added & -> & Hlen & Hnth).
  rewrite work_tail.
  intros H. apply savefig_ok_inv in H. destruct H as [_ ->].
  exists (row :: rows), target, ths, a0, b0, a1, b1, added.
  repeat (split; [first [reflexivity | assumption | discriminate]|]).
  unfold finished, drawn. cbn. rewrite <- !app_assoc. reflexivity.
Qed.


(** ** work: failures *)

(** C2: on a data file without rows, [work] prints the diagnostic and
    ends in the index error of the reader; nothing is drawn and nothing
    is saved. *)
Theorem work_empty_file (E : Env) name png th names colours label s d g
    (w : World) :
  lookup_file name (files w) = Some [] ->
  work E name png th names colours label s d g w =
  ({| files := files w;
      stdout := stdout w ++ ["Could not read data file"%string];
      gcf := gcf w; saved := saved w |},
   Raise IndexError).
Proof.
  intros H. unfold work, mbind, try_reraise, read_csv. rewrite H.
  reflexivity.
Qed.

Lemma work_empty_file_witness :
  snd (work sample_env "empty.dat" "" None None None "Value" None None None
            (fresh_world [("empty.dat"%string, [])]))
  = Raise IndexError.
Proof.
  rewrite (work_empty_file sample_env "empty.dat" "" None None None "Value"
             None None None (fresh_world [("empty.dat"%string, [])])).
  - reflexivity.
  - reflexivity.
Defined.

(** C9: [work] calls [get_target] whatever its arguments are.  On a
    readable file with rows, leaving the target date and the gradient at
    [None] ends in a type error, with nothing drawn and nothing saved;
    [target_start] makes no difference, since [work] never passes it
    on. *)
Theorem work_without_target (E : Env) name rows png th names colours label s
    (w : World) :
  lookup_file name (files w) = Some rows ->
  rows <> [] ->
  work E name png th names colours label s None None w
  = (w, Raise TypeError).
Proof.
  intros Hf Hne. unfold work, mbind, try_reraise, read_csv. rewrite Hf.
  destruct rows as [|row rows]; [congruence|]. reflexivity.
Qed.

Lemma work_without_target_witness :
  work sample_env "data.csv" "out.png" (Some [7%Q]) (Some ["limit"%string])
       (Some ["red"%string]) "Value" None None None
       (fresh_world [("data.csv"%string, [(5%Q, date 2020 1 1)])])
  = (fresh_world [("data.csv"%string, [(5%Q, date 2020 1 1)])],
     Raise TypeError).
Proof.
  apply (work_without_target sample_env "data.csv" [(5%Q, date 2020 1 1)]).
  - reflexivity.
  - discriminate.
Defined.

(** ** work: the threshold lines *)

(** C8: when [work] succeeds, it has drawn one dashed line per
    threshold, in the order of the thresholds and before anything else;
    each runs from the earlier of the first date of the series and the
    first date of the target curve to the later of their last dates, at
    the height of the threshold, with the colour and the name found at
    the threshold's position. *)
Theorem work_threshold_lines (E : Env) name png th names colours label s d g
    (w w' : World) :
  work E name png th names colours label s d g w = (w', Ok tt) ->
  exists rows target ths a0 b0 a1 b1,
    lookup_file name (files w) = Some rows
    /\ get_target d g None (Some (series_of_rows rows)) th = Ok target
    /\ th = Some ths
    /\ first_item (pd.index (series_of_rows rows)) = Ok a0
    /\ first_item (pd.index target) = Ok b0
    /\ last_item (pd.index (series_of_rows rows)) = Ok a1
    /\ last_item (pd.index target) = Ok b1
    /\ length (fig_lines (gcf w')) =
       (length (fig_lines (gcf w)) + length ths + 4)%nat
    /\ forall k t, nth_error ths k = Some t ->
         exists c n,
           py.getitem colours k = Ok c /\ py.getitem names k = Ok n
           /\ nth_error (fig_lines (gcf w'))
                        (length (fig_lines (gcf w)) + k)
              = Some (threshold_line (Z.min a0 b0) (Z.max a1 b1) t c n).
Proof.
  intros H. apply work_ok_inv in H.
  destruct H as (rows & target & ths & a0 & b0 & a1 & b1 & added & Hf & _
                 & Ht & Hth & Ha0 & Hb0 & Ha1 & Hb1 & Hlen & Hnth & ->).
  exists rows, target, ths, a0, b0, a1, b1.
  repeat (split; [assumption|]).
  cbn [gcf finished fig_lines]. split.
  - rewrite !length_app, Hlen. cbn. lia.
  - intros k t Hk. destruct (Hnth k t Hk) as (c & n & Hc & Hn & Hadd).
    exists c, n. repeat split; try assumption.
    rewrite nth_error_app2 by lia.
    replace (length (fig_lines (gcf w)) + k - length (fig_lines (gcf w)))%nat
      with k by lia.
    rewrite nth_error_app1; [assumption|].
    apply nth_error_Some. congruence.
Qed.

Lemma work_threshold_lines_witness :
  exists w' : World,
    work sample_env "data.csv" "out.png" (Some [7%Q])
         (Some ["limit"%string]) (Some ["red"%string]) "Value" None
         (Some (date 2020 1 1)) (Some 1%Q)
         (fresh_world [("data.csv"%string,
                        [(5%Q, date 2020 1 1); (6%Q, date 2020 1 2)])])
    = (w', Ok tt)
    /\ length (fig_lines (gcf w')) = 5%nat
    /\ nth_error (fig_lines (gcf w')) 0
       = Some (threshold_line (date 2020 1 1) (date 2020 1 3) 7%Q
                              "red" "limit").
Proof.
  eexists. split; [vm_compute; reflexivity|].
  match goal with
  | |- context [gcf ?w'] =>
      destruct (work_threshold_lines sample_env
                  "data.csv" "out.png" (Some [7%Q]) (Some ["limit"%string])
                  (Some ["red"%string]) "Value" None (Some (date 2020 1 1))
                  (Some 1%Q)
                  (fresh_world [("data.csv"%string,
                        [(5%Q, date 2020 1 1); (6%Q, date 2020 1 2)])])
                  w')
        as (rows & target & ths & a0 & b0 & a1 & b1 & _ & _ & Hth & _ & _
            & _ & _ & Hlen & _)
  end.
  - vm_compute; reflexivity.
  - injection Hth as <-. split; [exact Hlen | vm_compute; reflexivity].
Defined.

(** ** What a failed run of work leaves behind *)

Lemma plot_threshold_raise (E : Env) x0 x1 names colours (i : nat) (th : Q)
    (w w' : World) (e : exn) :
  plot_threshold E [x0; x1] names colours i th w = (w', Raise e) ->
  w' = w
  /\ (py.getitem colours i = Raise e
      \/ (exists c, py.getitem colours i = Ok c
                    /\ py.getitem names i = Raise e)
      \/ (exists c n, py.getitem colours i = Ok c
                      /\ py.getitem names i = Ok n
                      /\ is_color E c = false /\ e = ValueError)).
Proof.
  unfold plot_threshold, mbind, lift.
  destruct (py.getitem colours i) as [c|e1].
  - destruct (py.getitem names i) as [n|e2].
    + destruct (is_color E c) eqn:Ec.
      * rewrite (plot_ok E x0 x1 th c n w Ec). discriminate.
      * rewrite (plot_raise E x0 x1 th c n w Ec).
        intros [= <- <-]. split; [reflexivity|]. right. right.
        exists c, n. repeat split; assumption.
    + intros [= <- <-]. split; [reflexivity|]. right. left. now exists c.
  - intros [= <- <-]. split; [reflexivity|]. now left.
Qed.

Lemma for_enumerate_raise (E : Env) x0 x1 names colours (ths : list Q)
    (e : exn) :
  forall (i : nat) (w w' : World),
    for_enumerate i ths (plot_threshold E [x0; x1] names colours) w
    = (w', Raise e) ->
    exists added,
      w' = drawn w added
      /\ (length added < length ths)%nat
      /\ (forall k th, (k < length added)%nat -> nth_error ths k = Some th ->
            exists c n,
              py.getitem colours (i + k) = Ok c
              /\ py.getitem names (i + k) = Ok n
              /\ nth_error added k = Some (threshold_line x0 x1 th c n))
      /\ (py.getitem colours (i + length added) = Raise e
          \/ (exists c, py.getitem colours (i + length added) = Ok c
                        /\ py.getitem names (i + length added) = Raise e)
          \/ (exists c n, py.getitem colours (i + length added) = Ok c
                          /\ py.getitem names (i + length added) = Ok n
                          /\ is_color E c = false /\ e = ValueError)).
Proof.
  induction ths as [|t ths IH]; intros i w w' H; cbn [for_enumerate] in H.
  - discriminate.
  - unfold mbind in H at 1.
    destruct (plot_threshold E [x0; x1] names colours i t w)
      as [w1 [[]|e1]] eqn:H1.
    + apply plot_threshold_ok in H1. destruct H1 as (c & n & Hc & Hn & ->).
      apply IH in H. destruct H as (added & -> & Hlen & Hnth & Hfail).
      exists (threshold_line x0 x1 t c n :: added).
      split; [now rewrite drawn_drawn|].
      split; [cbn; lia|].
      split.
      * intros [|k] th Hk Hth.
        -- injection Hth as <-. rewrite Nat.add_0_r. exists c, n.
           repeat split; assumption.
        -- cbn [nth_error length] in *.
           destruct (Hnth k th ltac:(lia) Hth) as (c' & n' & ? & ? & ?).
           exists c', n'. replace (i + S k)%nat with (S i + k)%nat by lia.
           repeat split; assumption.
      * cbn [length].
        replace (i + S (length added))%nat
          with (S i + length added)%nat by lia.
        exact Hfail.
    + injection H as <- <-.
      apply plot_threshold_raise in H1. destruct H1 as [-> Hfail].
      exists []. split; [now rewrite drawn_nil|].
      split; [cbn; lia|].
      split; [intros k th Hk; cbn in Hk; lia|].
      cbn [length]. rewrite Nat.add_0_r. exact Hfail.
Qed.

(** A step that raised before anything was drawn. *)
Ltac stays_put :=
  intros [= <- <-]; right; left;
  eexists; exists (@nil Line);
  split; [reflexivity|];
  split; [discriminate|];
  split; [now rewrite drawn_nil | congruence].

Lemma work_raise_inv (E : Env) name png th names colours label s d g
    (w w' : World) (e : exn) :
  work E name png th names colours label s d g w = (w', Raise e) ->
  (read_csv E name w = (w, Raise e)
   /\ w' = printed w "Could not read data file")
  \/ (exists rows added,
        lookup_file name (files w) = Some rows /\ rows <> []
        /\ w' = drawn w added
        /\ (added <> [] ->
            exists ths target, th = Some ths
              /\ (length added < length ths)%nat
              /\ get_target d g None (Some (series_of_rows rows)) th
                 = Ok target
              /\ target <> []))
  \/ (exists rows w1,
        lookup_file name (files w) = Some rows /\ rows <> []
        /\ files w1 = files w /\ stdout w1 = stdout w
        /\ saved w1 = saved w
        /\ fig_legend (gcf w1) = Some ("small", "lower left")%string
        /\ fig_ylabel (gcf w1) = Some label
        /\ fig_xlabel (gcf w1) = Some "Date"%string
        /\ plt.savefig E png 200 w1 = (w', Raise e)).
Proof.
  unfold work. unfold mbind at 1. unfold try_reraise, read_csv.
  destruct (lookup_file name (files w)) as [[|row rows]|] eqn:Hf.
  - intros [= <- <-]. left. split; reflexivity.
  - set (ts := series_of_rows (row :: rows)).
    unfold mbind at 1. unfold lift at 1.
    destruct (get_target d g None (Some ts) th) as [target|] eqn:Ht;
      [|stays_put].
    unfold mbind at 1. unfold lift at 1.
    destruct (first_item (pd.index ts)) as [a0|] eqn:Ha0; [|stays_put].
    unfold mbind at 1. unfold lift at 1.
    destruct (first_item (pd.index target)) as [b0|] eqn:Hb0;
      [|stays_put].
    unfold mbind at 1. unfold lift at 1.
    destruct (last_item (pd.index ts)) as [a1|] eqn:Ha1; [|stays_put].
    unfold mbind at 1. unfold lift at 1.
    destruct (last_item (pd.index target)) as [b1|] eqn:Hb1;
      [|stays_put].
    unfold mbind at 1. unfold lift at 1.
    destruct th as [ths|]; [|stays_put].
    unfold mbind at 1.
    destruct (for_enumerate 0 ths _ w) as [w1 [[]|e1]] eqn:Hloop.
    + apply for_enumerate_ok in Hloop.
      destruct Hloop as (added & -> & _).
      rewrite work_tail.
      match goal with
      | |- plt.savefig E png 200 ?w1 = _ -> _ =>
          intros H; right; right; exists (row :: rows), w1
      end.
      repeat (split; [first [reflexivity | discriminate]|]). exact H.
    + intros [= <- <-]. apply for_enumerate_raise in Hloop.
      destruct Hloop as (added & -> & Hlen & _).
      right. left. exists (row :: rows), added.
      split; [reflexivity|]. split; [discriminate|].
      split; [reflexivity|]. intros _. exists ths, target.
      repeat split; try assumption; try reflexivity.
      intros ->. discriminate.
  - intros [= <- <-]. left. split; reflexivity.
Qed.

(** ** work: what is saved, printed and kept *)


(** X2: after the threshold lines a successful run has drawn four
    traces and nothing else, in this order: the observations as blue
    dots, the weekly mean and the running mean as blue lines with their
    labels, and the target curve as a grey dashed line. *)
Theorem work_traces (E : Env) name png th names colours label s d g
    (w w' : World) :
  work E name png th names colours label s d g w = (w', Ok tt) ->
  exists rows target ths,
    lookup_file name (files w) = Some rows
    /\ get_target d g None (Some (series_of_rows rows)) th = Ok target
    /\ th = Some ths
    /\ skipn (length (fig_lines (gcf w)) + length ths)
             (fig_lines (gcf w'))
       = traces (series_of_rows rows) target.
Proof.
  intros H. apply work_ok_inv in H.
  destruct H as (rows & target & ths & a0 & b0 & a1 & b1 & added & H).
  destruct H as (Hf & _ & Ht & Hth & _ & _ & _ & _ & Hlen & _ & ->).
  exists rows, target, ths. repeat (split; [assumption|]).
  cbn [gcf finished fig_lines].
  rewrite app_assoc, skipn_app, skipn_all2
    by (rewrite length_app; lia).
  rewrite length_app, Hlen, Nat.sub_diag. reflexivity.
Qed.


(** X4: the figure is never cleared.  Of two successful runs in a
    row, the image saved by the second holds every line of the image
    saved by the first, followed by the lines of its own. *)
Theorem work_twice_accumulates (E : Env)
    name1 png1 th1 names1 colours1 label1 s1 d1 g1
    name2 png2 th2 names2 colours2 label2 s2 d2 g2 (w w1 w2 : World) :
  work E name1 png1 th1 names1 colours1 label1 s1 d1 g1 w = (w1, Ok tt) ->
  work E name2 png2 th2 names2 colours2 label2 s2 d2 g2 w1 = (w2, Ok tt) ->
  exists fig1 fig2 more,
    saved w2 = saved w ++ [(png1, 200, fig1); (png2, 200, fig2)]
    /\ fig_lines fig2 = fig_lines fig1 ++ more
    /\ (5 <= length more)%nat.
Proof.
  intros H1 H2. apply work_ok_inv in H1. apply work_ok_inv in H2.
  destruct H1 as (rows1 & t1 & ths1 & ? & ? & ? & ? & added1 & H1).
  destruct H1 as (_ & _ & _ & _ & _ & _ & _ & _ & _ & _ & ->).
  destruct H2 as (rows2 & t2 & ths2 & ? & ? & ? & ? & added2 & H2).
  destruct H2 as (_ & _ & Ht2 & Hth2 & _ & _ & _ & _ & Hlen2 & _ & ->).
  cbn [gcf saved finished fig_lines].
  eexists. eexists. exists (added2 ++ traces (series_of_rows rows2) t2).
  split; [rewrite <- app_assoc; reflexivity|].
  split; [reflexivity|].
  rewrite length_app, Hlen2. cbn [traces length].
  assert (ths2 <> []).
  { intros ->. subst th2. unfold get_target, target_plan in Ht2.
    destruct (resolve_start d2 None _) as [[dd sv]|]; [|discriminate].
    cbn [bind] in Ht2. destruct g2 as [gq|]; [|discriminate].
    destruct (Qltb 0 gq); discriminate. }
  destruct ths2; [congruence | cbn; lia].
Qed.

(** X5: whenever the reader raises, whatever the exception, [work]
    prints the diagnostic once, does nothing else and ends in that same
    exception; a run whose file is read prints nothing. *)
Theorem work_diagnostic (E : Env) name png th names colours label s d g
    (w w' : World) (r : result unit) :
  work E name png th names colours label s d g w = (w', r) ->
  (exists e,
      read_csv E name w = (w, Raise e)
      /\ r = Raise e
      /\ w' = printed w "Could not read data file")
  \/ ((exists ts, read_csv E name w = (w, Ok ts))
      /\ stdout w' = stdout w).
Proof.
  intros H.
  assert (Hread : forall rows,
            lookup_file name (files w) = Some rows -> rows <> [] ->
            exists ts, read_csv E name w = (w, Ok ts)).
  { intros rows Hf Hne. unfold read_csv. rewrite Hf.
    destruct rows; [congruence|]. eexists. reflexivity. }
  destruct r as [[]|e].
  - right. apply work_ok_inv in H.
    destruct H as (rows & target & ths & a0 & b0 & a1 & b1 & added & H).
    destruct H as (Hf & Hne & _ & _ & _ & _ & _ & _ & _ & _ & ->).
    split; [now apply (Hread rows) | reflexivity].
  - apply work_raise_inv in H.
    destruct H as [[Hr ->] | [(rows & added & Hf & Hne & -> & _)
                             | (rows & w1 & Hf & Hne & _ & Hout & _ & _ & _
                                & _ & H)]].
    + left. exists e. split; [assumption|]. split; reflexivity.
    + right. split; [now apply (Hread rows) | reflexivity].
    + right. split; [now apply (Hread rows)|].
      apply savefig_raise_inv in H. destruct H as (_ & Hout' & _).
      congruence.
Qed.


Lemma work_traces_witness :
  exists w',
    sample_run "out.png" sample_world = (w', Ok tt)
    /\ exists target,
         skipn 1 (fig_lines (gcf w'))
         = traces [(date 2020 1 1, 5%Q); (date 2020 1 2, 6%Q)] target.
Proof.
  eexists. split; [vm_compute; reflexivity|].
  match goal with
  | |- context [gcf ?w'] =>
      destruct (work_traces sample_env "data.csv" "out.png" (Some [7%Q])
                  (Some ["limit"%string]) (Some ["red"%string]) "Value"
                  None (Some (date 2020 1 1)) (Some 1%Q) sample_world w')
        as (rows & target & ths & Hf & _ & Hth & Hsk)
  end.
  - vm_compute; reflexivity.
  - change (Some [(5%Q, date 2020 1 1); (6%Q, date 2020 1 2)] = Some rows)
      in Hf.
    injection Hf as <-. injection Hth as <-.
    exists target. exact Hsk.
Defined.


Lemma work_twice_accumulates_witness :
  exists w1,
    sample_run "one.png" sample_world = (w1, Ok tt)
    /\ exists w2,
         sample_run "two.png" w1 = (w2, Ok tt)
         /\ exists fig1 fig2 more,
              saved w2 = [("one.png"%string, 200, fig1);
                          ("two.png"%string, 200, fig2)]
              /\ fig_lines fig2 = fig_lines fig1 ++ more
              /\ (5 <= length more)%nat.
Proof.
  eexists. split; [vm_compute; reflexivity|].
  match goal with
  | |- exists w2, sample_run _ ?w1 = _ /\ _ =>
      eexists; split; [vm_compute; reflexivity|];
      match goal with
      | |- exists f1 f2 m, saved ?w2 = _ /\ _ =>
          destruct (work_twice_accumulates sample_env
                      "data.csv" "one.png" (Some [7%Q])
                      (Some ["limit"%string]) (Some ["red"%string])
                      "Value" None (Some (date 2020 1 1)) (Some 1%Q)
                      "data.csv" "two.png" (Some [7%Q])
                      (Some ["limit"%string]) (Some ["red"%string])
                      "Value" None (Some (date 2020 1 1)) (Some 1%Q)
                      sample_world w1 w2)
            as (fig1 & fig2 & more & Hs & Hl & Hm);
            [vm_compute; reflexivity | vm_compute; reflexivity |]
      end
  end.
  exists fig1, fig2, more. split; [exact Hs|]. split; assumption.
Defined.

Lemma work_diagnostic_witness :
  exists w',
    work sample_env "absent.csv" "out.png" None None None "Value" None None
         None sample_world
    = (w', Raise FileNotFoundError)
    /\ stdout w' = ["Could not read data file"%string].
Proof.
  eexists. split; [vm_compute; reflexivity|].
  match goal with
  | |- stdout ?w' = _ =>
      destruct (work_diagnostic sample_env "absent.csv" "out.png" None None
                  None "Value" None None None sample_world w'
                  (Raise FileNotFoundError))
        as [(e & _ & _ & Hw) | ((ts & Hr) & _)]
  end.
  - vm_compute; reflexivity.
  - vm_compute in Hw. vm_compute. exact (f_equal stdout Hw).
  - exfalso. vm_compute in Hr. discriminate Hr.
Defined.

(** ** A start beyond the thresholds *)

Lemma round_half_even_neg (x : Q) :
  (x <= -1)%Q -> round_half_even x <= -1.
Proof.
  intros H. pose proof (round_half_even_bounds x) as [Hlo _].
  assert (Hq : (inject_Z (round_half_even x) < inject_Z 0)%Q).
  { change (inject_Z 0) with 0%Q.
    set (r := inject_Z (round_half_even x)) in *. clearbody r. lra. }
  rewrite <- Zlt_Qlt in Hq. lia.
Qed.

(** X6: when the start value already lies beyond the end value in
    the direction of the gradient, by a microsecond's travel or more,
    [get_target] returns a curve without any point. *)
Theorem get_target_past_threshold d g s ts th (p : Plan) (gq : Q) :
  target_plan d g s ts th = Ok p ->
  g = Some gq ->
  ((end_value p - start_value p) / gq * inject_Z py.US_PER_DAY <= -1)%Q ->
  get_target d g s ts th = Ok [].
Proof.
  intros Hp Hg Hx.
  rewrite (get_target_plan _ _ _ _ _ _ Hp). f_equal.
  apply curve_empty.
  destruct (target_plan_inv _ _ _ _ _ _ Hp)
    as (x & gq' & _ & _ & Hg' & _ & _ & Hd).
  assert (gq' = gq) by congruence. subst gq'.
  apply round_half_even_neg in Hx. lia.
Qed.

Lemma get_target_past_threshold_witness :
  get_target (Some (date 2020 1 1)) (Some 1%Q) (Some 30%Q) None
             (Some [10%Q; 20%Q]) = Ok [].
Proof.
  eapply (get_target_past_threshold
            (Some (date 2020 1 1)) (Some 1%Q) (Some 30%Q) None
            (Some [10%Q; 20%Q]) _ 1%Q).
  - vm_compute; reflexivity.
  - reflexivity.
  - vm_compute. discriminate.
Defined.

(** X7: with a target curve that has no point, [work] ends in an
    index error at the first date of the curve, before anything is
    drawn. *)
Theorem work_empty_curve (E : Env) name rows png th names colours label
    s d g (w : World) :
  lookup_file name (files w) = Some rows ->
  rows <> [] ->
  get_target d g None (Some (series_of_rows rows)) th = Ok [] ->
  work E name png th names colours label s d g w = (w, Raise IndexError).
Proof.
  intros Hf Hne Ht. unfold work. unfold mbind at 1.
  unfold try_reraise, read_csv. rewrite Hf.
  destruct rows as [|row rows]; [congruence|].
  unfold mbind at 1. unfold lift at 1. rewrite Ht.
  reflexivity.
Qed.

Lemma work_empty_curve_witness :
  work sample_env "data.csv" "out.png" (Some [3%Q]) (Some ["limit"%string])
       (Some ["red"%string]) "Value" None (Some (date 2020 1 1))
       (Some 1%Q) sample_world
  = (sample_world, Raise IndexError).
Proof.
  apply (work_empty_curve sample_env "data.csv"
           [(5%Q, date 2020 1 1); (6%Q, date 2020 1 2)]).
  - reflexivity.
  - discriminate.
  - vm_compute; reflexivity.
Defined.

(** ** A date that occurs twice *)

(** X8: when the date nearest to [target_start_date] occurs more
    than once in the series, the start value is not a number but the
    sub-series of all its entries, and [get_target] ends in a type
    error, whatever the gradient and the thresholds (one at least)
    are. *)
Theorem get_target_repeated_date (s : Series) (d d' : Timestamp)
    (x : scalar) (gq t : Q) (r : list Q) :
  resolve_start (Some d) None (Some s) = Ok (Some d', x) ->
  (2 <= count_occ Z.eq_dec (pd.index s) d')%nat ->
  (exists vs, x = SubSeries vs /\ (2 <= length vs)%nat)
  /\ get_target (Some d) (Some gq) None (Some s) (Some (t :: r))
     = Raise TypeError.
Proof.
  intros Hr Hcount.
  assert (Hx : exists vs, x = SubSeries vs /\ (2 <= length vs)%nat).
  { pose proof (resolve_start_inv _ _ _ _ Hr)
      as (dd & s0 & k & _ & Hs0 & Hk & _ & Hg).
    injection Hs0 as <-. injection Hk as <-.
    eapply getitem_repeated; eassumption. }
  split; [exact Hx|].
  destruct Hx as (vs & -> & _).
  unfold get_target, target_plan. rewrite Hr. cbn [bind].
  destruct (Qltb 0 gq); reflexivity.
Qed.

Lemma get_target_repeated_date_witness :
  get_target (Some (date 2020 1 1)) (Some 1%Q) None
             (Some [(date 2020 1 1, 5%Q); (date 2020 1 1, 6%Q)])
             (Some [20%Q])
  = Raise TypeError.
Proof.
  refine (proj2 (get_target_repeated_date
                   [(date 2020 1 1, 5%Q); (date 2020 1 1, 6%Q)]
                   (date 2020 1 1) (date 2020 1 1)
                   (SubSeries [5%Q; 6%Q]) 1%Q 20%Q [] _ _)).
  - vm_compute; reflexivity.
  - vm_compute. apply le_n.
Defined.

(** ** Interpolation *)

Lemma linspace_nth (a b : Q) (m k : nat) :
  (k <= S m)%nat ->
  exists v,
    nth_error (np.linspace a b (S (S m))) k = Some v
    /\ (v == a + inject_Z (Z.of_nat k)
                 * ((b - a) / inject_Z (Z.of_nat (S m))))%Q.
Proof.
  intros Hk. rewrite linspace_two.
  destruct (Nat.eq_dec k (S m)) as [->|Hne].
  - exists b. split.
    + rewrite nth_error_app2 by (rewrite length_map, length_seq; lia).
      rewrite length_map, length_seq, Nat.sub_diag. reflexivity.
    + rewrite <- (linspace_stop a b m) at 1. ring.
  - eexists. split.
    + rewrite nth_error_app1 by (rewrite length_map, length_seq; lia).
      apply nth_error_map_seq. lia.
    + cbv beta. ring.
Qed.

(** ** work: the unused argument *)

(** X11: [work] never passes [target_start] on, so its value makes
    no difference to what [work] does. *)
Theorem work_ignores_target_start (E : Env) name png th names colours label
    (s1 s2 : option Q) d g (w : World) :
  work E name png th names colours label s1 d g w
  = work E name png th names colours label s2 d g w.
Proof. reflexivity. Qed.

(** ** work: what success takes *)

(** X12: [work] succeeds only with a list of thresholds that is not
    empty, a target date, a gradient other than zero, and lists of
    names and of colours at least as long as the list of thresholds. *)
Theorem work_success_requires (E : Env) name png th names colours label
    s d g (w w' : World) :
  work E name png th names colours label s d g w = (w', Ok tt) ->
  exists ths cs ns gq dd,
    th = Some ths /\ ths <> []
    /\ colours = Some cs /\ names = Some ns
    /\ (length ths <= length cs)%nat
    /\ (length ths <= length ns)%nat
    /\ g = Some gq /\ ~ (gq == 0)%Q
    /\ d = Some dd.
Proof.
  intros H. apply work_ok_inv in H.
  destruct H as (rows & target & ths & a0 & b0 & a1 & b1 & added & H).
  destruct H as (_ & _ & Ht & -> & _ & _ & _ & _ & _ & Hnth & _).
  apply get_target_inv in Ht. destruct Ht as (p & Hp & _).
  destruct (target_plan_inv _ _ _ _ _ _ Hp)
    as (x & gq & Hr & _ & -> & Hnz & He & _).
  assert (Hd : exists dd, d = Some dd).
  { unfold resolve_start in Hr. cbn [bind] in Hr.
    destruct d as [dd|]; [now exists dd | discriminate]. }
  destruct Hd as (dd & ->).
  assert (Hne : ths <> []).
  { intros ->. destruct (Qltb 0 gq); discriminate. }
  assert (Hcover : forall (l : option (list string)),
            (forall k t, nth_error ths k = Some t ->
                         exists c, py.getitem l k = Ok c) ->
            exists xs, l = Some xs /\ (length ths <= length xs)%nat).
  { intros l Hl. destruct l as [xs|].
    - exists xs. split; [reflexivity|].
      destruct (Nat.le_gt_cases (length ths) (length xs)) as [|Hlt];
        [assumption|].
      destruct (nth_error ths (length xs)) as [t|] eqn:Et.
      + destruct (Hl _ _ Et) as (c & Hc). unfold py.getitem in Hc.
        destruct (nth_error xs (length xs)) eqn:E2; [|discriminate].
        assert (length xs < length xs)%nat
          by (apply nth_error_Some; congruence). lia.
      + apply nth_error_None in Et. lia.
    - destruct ths as [|t ths]; [congruence|].
      destruct (Hl 0%nat t eq_refl) as (c & Hc). discriminate. }
  destruct (Hcover colours) as (cs & -> & Hcs).
  { intros k t Hk. destruct (Hnth k t Hk) as (c & n & Hc & _). now exists c. }
  destruct (Hcover names) as (ns & -> & Hns).
  { intros k t Hk. destruct (Hnth k t Hk) as (c & n & _ & Hn & _).
    now exists n. }
  exists ths, cs, ns, gq, dd. repeat split; assumption.
Qed.

Lemma work_success_requires_witness :
  exists w' ths cs ns,
    sample_run "out.png" sample_world = (w', Ok tt)
    /\ Some [7%Q] = Some ths /\ ths <> []
    /\ Some ["red"%string] = Some cs /\ Some ["limit"%string] = Some ns
    /\ (length ths <= length cs)%nat /\ (length ths <= length ns)%nat.
Proof.
  eexists.
  match goal with
  | |- exists ths cs ns, _ = (?w', _) /\ _ =>
      destruct (work_success_requires sample_env "data.csv" "out.png"
                  (Some [7%Q])
                  (Some ["limit"%string]) (Some ["red"%string]) "Value"
                  None (Some (date 2020 1 1)) (Some 1%Q) sample_world w')
        as (ths & cs & ns & gq & dd & H1 & H2 & H3 & H4 & H5 & H6 & _)
  end.
  - vm_compute; reflexivity.
  - exists ths, cs, ns.
    split; [vm_compute; reflexivity|].
    repeat split; assumption.
Defined.

(** ** When get_target returns *)

Lemma round_half_even_abs (x : Q) (n : Z) :
  (Qabs x <= inject_Z n)%Q -> Z.abs (round_half_even x) <= n.
Proof.
  intros H. apply Qabs_Qle_condition in H. destruct H as [Hlo Hhi].
  pose proof (round_half_even_bounds x) as [Rlo Rhi].
  set (r := round_half_even x) in *. clearbody r.
  assert (H1 : (inject_Z r < inject_Z (n + 1))%Q).
  { rewrite inject_Z_plus. change (inject_Z 1) with 1%Q.
    set (a := inject_Z r) in *. set (b := inject_Z n) in *.
    clearbody a b. lra. }
  assert (H2 : (inject_Z (- n - 1) < inject_Z r)%Q).
  { unfold Z.sub. rewrite !inject_Z_plus, inject_Z_opp.
    change (inject_Z (- (1))) with (- (1))%Q.
    set (a := inject_Z r) in *. set (b := inject_Z n) in *.
    clearbody a b. lra. }
  rewrite <- Zlt_Qlt in H1, H2. lia.
Qed.

Lemma timedelta_ok (q : Q) :
  (Qabs q <= 50000)%Q ->
  exists us,
    py.timedelta (Finite q) = Ok us
    /\ us = round_half_even (q * inject_Z py.US_PER_DAY)
    /\ Z.abs us <= 50000 * py.US_PER_DAY.
Proof.
  intros H.
  assert (Hus : Z.abs (round_half_even (q * inject_Z py.US_PER_DAY))
                <= 50000 * py.US_PER_DAY).
  { apply round_half_even_abs. rewrite Qabs_Qmult.
    rewrite inject_Z_mult.
    change (Qabs (inject_Z py.US_PER_DAY)) with (inject_Z py.US_PER_DAY).
    change (inject_Z 50000) with 50000%Q.
    apply Qmult_le_compat_r; [assumption | discriminate]. }
  eexists. split; [|split; [reflexivity | exact Hus]].
  unfold py.timedelta. cbv zeta.
  set (us := round_half_even (q * inject_Z py.US_PER_DAY)) in *.
  clearbody us.
  assert (Hd : Z.abs (us / py.US_PER_DAY) <= py.MAX_DELTA_DAYS).
  { assert (HU : 0 < py.US_PER_DAY) by reflexivity.
    assert (- 50000 <= us / py.US_PER_DAY)
      by (apply Z.div_le_lower_bound; lia).
    assert (us / py.US_PER_DAY <= 50000)
      by (apply Z.div_le_upper_bound; lia).
    unfold py.MAX_DELTA_DAYS. lia. }
  apply Z.leb_le in Hd. rewrite Hd. reflexivity.
Qed.

Lemma timestamp_add_ok (d us : Z) :
  near_epoch d ->
  Z.abs us <= 50000 * py.US_PER_DAY ->
  pd.timestamp_add d us = Ok (d + 1000 * us).
Proof.
  unfold near_epoch, pd.timestamp_add, fits_int64, INT64_MAX,
    py.US_PER_DAY.
  intros Hd Hus.
  assert (H1 : Z.abs (1000 * us) <= 2 ^ 63 - 1) by lia.
  assert (H2 : Z.abs (d + 1000 * us) <= 2 ^ 63 - 1) by lia.
  apply Z.leb_le in H1, H2. rewrite H1, H2. reflexivity.
Qed.

Lemma target_plan_from (d0 : Timestamp) (x : scalar) (v gq : Q)
    d s ts (ths : list Q) :
  resolve_start d s ts = Ok (Some d0, x) ->
  (x = PyNum v \/ x = NpNum v) ->
  ~ (gq == 0)%Q ->
  ths <> [] ->
  near_epoch d0 ->
  short_way v gq ths ->
  exists p,
    target_plan d (Some gq) s ts (Some ths) = Ok p
    /\ start_date p = d0 /\ start_value p = v.
Proof.
  intros Hr Hx Hnz Hne Hd Hway. unfold target_plan. rewrite Hr. cbn [bind].
  assert (Hz : Qeq_bool gq 0 = false).
  { destruct (Qeq_bool gq 0) eqn:E; [|reflexivity].
    apply Qeq_bool_iff in E. contradiction. }
  assert (He : exists e,
            (if Qltb 0 gq then py.max (Some ths) else py.min (Some ths))
            = Ok e /\ In e ths).
  { destruct ths as [|t r]; [congruence|].
    destruct (Qltb 0 gq); cbn [py.max py.min]; eexists;
      (split; [reflexivity|]);
      [apply fold_max_spec | apply fold_min_spec]. }
  destruct He as (e & -> & Hin). cbn [bind].
  unfold short_way in Hway. rewrite Forall_forall in Hway.
  destruct (Hway e Hin) as [Hdiff Hdays].
  destruct (timedelta_ok _ Hdays) as (us & Htd & _ & Hus).
  assert (Hf1 : is_finite (e - v) = true) by now apply is_finite_half.
  assert (Hf2 : is_finite ((e - v) / gq) = true).
  { apply is_finite_half. eapply Qle_trans; [exact Hdays|]. discriminate. }
  assert (Hdiv : true_divide (rsub e x) gq = Ok (Finite ((e - v) / gq))).
  { destruct Hx as [-> | ->]; cbn [rsub]; unfold true_divide;
      now rewrite Hz, Hf1, Hf2. }
  rewrite Hdiv. cbn [bind]. rewrite Htd. cbn [bind].
  rewrite (timestamp_add_ok d0 us Hd Hus). cbn [bind].
  destruct Hx as [-> | ->]; cbn [as_float bind];
    eexists; (split; [reflexivity|]); split; reflexivity.
Qed.

(** X13: [get_target] returns a curve whenever the gradient is not
    zero, there is a threshold, the start date is less than [2 ^ 62]
    nanoseconds from the epoch and the way from the start value to each
    threshold is at most half the range of float64 and takes at most
    [50000] days, if either the start value is given along with the
    start date, or the series is not empty, has distinct dates and
    meets these bounds at each of its entries; in the first case the
    curve starts from the given date and value, in the second from an
    entry of the series. *)
Theorem get_target_returns (d : Timestamp) (gq : Q) (ths : list Q) :
  ~ (gq == 0)%Q ->
  ths <> [] ->
  near_epoch d ->
  (forall v ts,
      short_way v gq ths ->
      exists p,
        get_target (Some d) (Some gq) (Some v) ts (Some ths) = Ok (curve p)
        /\ start_date p = d /\ start_value p = v)
  /\ (forall s,
        s <> [] -> NoDup (pd.index s) ->
        Forall (fun e => near_epoch (fst e) /\ short_way (snd e) gq ths) s ->
        exists p,
          get_target (Some d) (Some gq) None (Some s) (Some ths)
          = Ok (curve p)
          /\ In (start_date p, start_value p) s).
Proof.
  intros Hnz Hne Hd. split.
  - intros v ts Hway.
    destruct (target_plan_from d (PyNum v) v gq (Some d) (Some v) ts ths)
      as (p & Hp & Hpd & Hpv);
      [reflexivity | now left | assumption..|].
    exists p. split; [now apply get_target_plan | now split].
  - intros s Hs Hnd Hall.
    assert (Hfit : Forall (fun t => Z.abs (t - d) <= INT64_MAX) (pd.index s)).
    { apply Forall_forall. intros t Ht. unfold pd.index in Ht.
      apply in_map_iff in Ht. destruct Ht as (e & <- & He).
      rewrite Forall_forall in Hall. destruct (Hall e He) as [Hn _].
      unfold near_epoch, INT64_MAX in *. lia. }
    destruct (resolve_start_spec s d Hs Hfit)
      as (idx & d' & v & x & Hnth & _ & _ & Hr & Hget).
    assert (Hin : In (d', v) s) by (eapply nth_error_In; eassumption).
    assert (Hc : count_occ Z.eq_dec (pd.index s) d' = 1%nat).
    { apply NoDup_count_occ'; [assumption|].
      unfold pd.index. change d' with (fst (d', v)). now apply in_map. }
    rewrite (getitem_once s d' v Hin Hc) in Hget. injection Hget as <-.
    rewrite Forall_forall in Hall. destruct (Hall _ Hin) as [Hn Hw].
    destruct (target_plan_from d' (NpNum v) v gq (Some d) None (Some s) ths)
      as (p & Hp & Hpd & Hpv);
      [assumption | now right | assumption..|].
    exists p. split; [now apply get_target_plan|].
    rewrite Hpd, Hpv. exact Hin.
Qed.

Lemma get_target_returns_witness :
  exists p,
    get_target (Some (date 2020 1 1)) (Some (-2)%Q) (Some 10%Q) None
               (Some [4%Q; 7%Q])
    = Ok (curve p)
    /\ start_date p = date 2020 1 1 /\ start_value p = 10%Q.
Proof.
  refine (proj1 (get_target_returns (date 2020 1 1) (-2)%Q [4%Q; 7%Q]
                   _ _ _) 10%Q None _).
  - intros H. discriminate H.
  - discriminate.
  - reflexivity.
  - repeat (constructor; [split; vm_compute; discriminate|]).
    constructor.
Defined.

(** ** When work succeeds, and when the lists are too short *)

Lemma last_item_ok {A : Type} (l : list A) :
  l <> [] -> exists x, last_item l = Ok x.
Proof.
  intros H. destruct (exists_last H) as (l' & x & ->).
  exists x. apply last_item_app.
Qed.

Lemma first_item_ok {A : Type} (l : list A) :
  l <> [] -> exists x, first_item l = Ok x.
Proof. destruct l as [|x l]; [congruence | now exists x]. Qed.

Lemma mbind_ok {A B : Type} (m : M A) (k : A -> M B) (w w1 : World) (a : A) :
  m w = (w1, Ok a) -> mbind m k w = k a w1.
Proof. unfold mbind. now intros ->. Qed.

Lemma mbind_raise {A B : Type} (m : M A) (k : A -> M B) (w w1 : World)
    (e : exn) :
  m w = (w1, Raise e) -> mbind m k w = (w1, Raise e).
Proof. unfold mbind. now intros ->. Qed.

Lemma work_loop (E : Env) name rows png ths names colours label s d g
    (target : Series) (w : World) :
  lookup_file name (files w) = Some rows ->
  rows <> [] ->
  get_target d g None (Some (series_of_rows rows)) (Some ths) = Ok target ->
  target <> [] ->
  exists x0 x1,
    forall w1 r,
      for_enumerate 0 ths (plot_threshold E [x0; x1] names colours) w
      = (w1, r) ->
      work E name png (Some ths) names colours label s d g w
      = match r with
        | Ok _ =>
            plt.savefig E png 200
              {| files := files w1; stdout := stdout w1;
                 gcf := finished (gcf w1)
                          (traces (series_of_rows rows) target) label;
                 saved := saved w1 |}
        | Raise e => (w1, Raise e)
        end.
Proof.
  intros Hf Hne Ht Htne.
  assert (Hts : pd.index (series_of_rows rows) <> []).
  { destruct rows; [congruence | discriminate]. }
  assert (Htg : pd.index target <> []).
  { destruct target; [congruence | discriminate]. }
  destruct (first_item_ok _ Hts) as (a0 & Ha0).
  destruct (first_item_ok _ Htg) as (b0 & Hb0).
  destruct (last_item_ok _ Hts) as (a1 & Ha1).
  destruct (last_item_ok _ Htg) as (b1 & Hb1).
  exists (Z.min a0 b0), (Z.max a1 b1). intros w1 r Hloop.
  assert (Hread : try_reraise (read_csv E name)
                    (print "Could not read data file") w
                  = (w, Ok (series_of_rows rows))).
  { unfold try_reraise, read_csv. rewrite Hf.
    destruct rows; [congruence | reflexivity]. }
  unfold work.
  rewrite (mbind_ok _ _ _ _ _ Hread).
  rewrite (mbind_ok (lift _) _ w w target) by (unfold lift; now rewrite Ht).
  rewrite (mbind_ok (lift _) _ w w a0) by (unfold lift; now rewrite Ha0).
  rewrite (mbind_ok (lift _) _ w w b0) by (unfold lift; now rewrite Hb0).
  rewrite (mbind_ok (lift _) _ w w a1) by (unfold lift; now rewrite Ha1).
  rewrite (mbind_ok (lift _) _ w w b1) by (unfold lift; now rewrite Hb1).
  rewrite (mbind_ok (lift _) _ w w ths) by reflexivity.
  destruct r as [[]|e].
  - rewrite (mbind_ok _ _ _ _ _ Hloop). apply work_tail.
  - apply (mbind_raise _ _ _ _ _ Hloop).
Qed.

Lemma plot_threshold_passes (E : Env) x0 x1 (ns cs : list string) (i : nat)
    (t : Q) (w : World) :
  threshold_error E ns cs i = None ->
  exists c n,
    plot_threshold E [x0; x1] (Some ns) (Some cs) i t w
    = (drawn w [threshold_line x0 x1 t c n], Ok tt).
Proof.
  unfold threshold_error, plot_threshold, mbind, lift, py.getitem.
  destruct (nth_error cs i) as [c|]; [|discriminate].
  destruct (nth_error ns i) as [n|]; [|discriminate].
  destruct (is_color E c) eqn:Ec; [|discriminate].
  intros _. exists c, n. apply plot_ok. exact Ec.
Qed.

Lemma plot_threshold_stops (E : Env) x0 x1 (ns cs : list string) (i : nat)
    (t : Q) (w : World) (e : exn) :
  threshold_error E ns cs i = Some e ->
  plot_threshold E [x0; x1] (Some ns) (Some cs) i t w = (w, Raise e).
Proof.
  unfold threshold_error, plot_threshold, mbind, lift, py.getitem.
  destruct (nth_error cs i) as [c|]; [|now intros [= <-]].
  destruct (nth_error ns i) as [n|]; [|now intros [= <-]].
  destruct (is_color E c) eqn:Ec; [discriminate|].
  intros [= <-]. apply plot_raise. exact Ec.
Qed.

Lemma for_enumerate_total (E : Env) x0 x1 (ns cs : list string)
    (ths : list Q) :
  forall (i : nat) (w : World),
    (forall k, (k < length ths)%nat ->
               threshold_error E ns cs (i + k) = None) ->
    exists w',
      for_enumerate i ths (plot_threshold E [x0; x1] (Some ns) (Some cs)) w
      = (w', Ok tt).
Proof.
  induction ths as [|t ths IH]; intros i w Hall; cbn [for_enumerate].
  - now exists w.
  - cbn [length] in Hall.
    destruct (plot_threshold_passes E x0 x1 ns cs i t w) as (c & n & H1).
    { rewrite <- (Nat.add_0_r i). apply Hall. lia. }
    rewrite (mbind_ok _ _ _ _ _ H1).
    apply IH. intros k Hk.
    replace (S i + k)%nat with (i + S k)%nat by lia. apply Hall. lia.
Qed.

Lemma for_enumerate_stops (E : Env) x0 x1 (ns cs : list string)
    (ths : list Q) (e : exn) :
  forall (k i : nat) (w : World),
    (k < length ths)%nat ->
    (forall j, (j < k)%nat -> threshold_error E ns cs (i + j) = None) ->
    threshold_error E ns cs (i + k) = Some e ->
    exists added,
      for_enumerate i ths (plot_threshold E [x0; x1] (Some ns) (Some cs)) w
      = (drawn w added, Raise e)
      /\ length added = k.
Proof.
  induction ths as [|t ths IH]; intros k i w Hk Hbefore Hat;
    cbn [for_enumerate length] in *; [lia|].
  destruct k as [|k].
  - rewrite Nat.add_0_r in Hat.
    rewrite (mbind_raise _ _ _ _ _
               (plot_threshold_stops E x0 x1 ns cs i t w e Hat)).
    exists []. split; [now rewrite drawn_nil | reflexivity].
  - destruct (plot_threshold_passes E x0 x1 ns cs i t w) as (c & n & H1).
    { rewrite <- (Nat.add_0_r i). apply Hbefore. lia. }
    rewrite (mbind_ok _ _ _ _ _ H1).
    destruct (IH k (S i) (drawn w [threshold_line x0 x1 t c n]))
      as (added & Hrun & Hlen).
    + lia.
    + intros j Hj. replace (S i + j)%nat with (i + S j)%nat by lia.
      apply Hbefore. lia.
    + now replace (S i + k)%nat with (i + S k)%nat by lia.
    + exists (threshold_line x0 x1 t c n :: added). split.
      * rewrite Hrun. now rewrite drawn_drawn.
      * cbn [length]. now rewrite Hlen.
Qed.

Lemma threshold_error_none (E : Env) (ns cs : list string) (k : nat) :
  (k < length cs)%nat -> (k < length ns)%nat ->
  (forall c, nth_error cs k = Some c -> is_color E c = true) ->
  threshold_error E ns cs k = None.
Proof.
  intros Hc Hn Hcol. unfold threshold_error.
  destruct (nth_error cs k) as [c|] eqn:Ec;
    [|apply nth_error_None in Ec; lia].
  destruct (nth_error ns k) as [n|] eqn:En;
    [|apply nth_error_None in En; lia].
  now rewrite (Hcol c eq_refl).
Qed.

(** X14: on a file with rows, with a target curve that has a point,
    with a name and a colour for every threshold, each of these colours
    one the environment takes for a colour, and with an image name under
    which the environment writes the figure, [work] succeeds. *)
Theorem work_returns (E : Env) name rows png ths (ns cs : list string)
    label s d g (target : Series) (w : World) :
  lookup_file name (files w) = Some rows ->
  rows <> [] ->
  get_target d g None (Some (series_of_rows rows)) (Some ths) = Ok target ->
  target <> [] ->
  (length ths <= length cs)%nat ->
  (length ths <= length ns)%nat ->
  Forall (fun c => is_color E c = true) (firstn (length ths) cs) ->
  (forall fig, saving E png fig = Written) ->
  exists w',
    work E name png (Some ths) (Some ns) (Some cs) label s d g w
    = (w', Ok tt).
Proof.
  intros Hf Hne Ht Htne Hc Hn Hcol Hsave.
  destruct (work_loop E name rows png ths (Some ns) (Some cs) label s d g
              target w Hf Hne Ht Htne) as (x0 & x1 & Hloop).
  destruct (for_enumerate_total E x0 x1 ns cs ths 0 w) as (w1 & H1).
  { intros k Hk. cbn [Nat.add].
    apply threshold_error_none; [lia | lia |].
    intros c Hck. rewrite Forall_forall in Hcol. apply Hcol.
    apply (nth_error_In _ k). rewrite nth_error_firstn.
    destruct (Nat.ltb_spec k (length ths)); [assumption | lia]. }
  rewrite (Hloop w1 (Ok tt) H1). unfold plt.savefig.
  rewrite Hsave. eexists. reflexivity.
Qed.

Lemma work_returns_witness :
  exists w',
    work sample_env "data.csv" "out.png" (Some [7%Q])
         (Some ["limit"%string]) (Some ["red"%string]) "Value" None
         (Some (date 2020 1 1)) (Some 1%Q) sample_world
    = (w', Ok tt).
Proof.
  eapply (work_returns sample_env "data.csv"
            [(5%Q, date 2020 1 1); (6%Q, date 2020 1 2)]).
  - reflexivity.
  - discriminate.
  - vm_compute; reflexivity.
  - discriminate.
  - apply le_n.
  - apply le_n.
  - repeat constructor.
  - intros fig. reflexivity.
Defined.

(** X15: when the names or the colours are fewer than the
    thresholds, and the colours there are all colours to the
    environment, [work] draws the lines of the thresholds that have
    both and ends in an index error; those lines stay on the figure. *)
Theorem work_short_lists (E : Env) name rows png ths (ns cs : list string)
    label s d g (target : Series) (w : World) :
  lookup_file name (files w) = Some rows ->
  rows <> [] ->
  get_target d g None (Some (series_of_rows rows)) (Some ths) = Ok target ->
  target <> [] ->
  (Nat.min (length cs) (length ns) < length ths)%nat ->
  Forall (fun c => is_color E c = true) cs ->
  exists added,
    work E name png (Some ths) (Some ns) (Some cs) label s d g w
    = (drawn w added, Raise IndexError)
    /\ length added = Nat.min (length cs) (length ns).
Proof.
  intros Hf Hne Ht Htne Hm Hcol.
  destruct (work_loop E name rows png ths (Some ns) (Some cs) label s d g
              target w Hf Hne Ht Htne) as (x0 & x1 & Hloop).
  destruct (for_enumerate_stops E x0 x1 ns cs ths IndexError
              (Nat.min (length cs) (length ns)) 0 w)
    as (added & H1 & Hlen).
  - exact Hm.
  - intros j Hj. cbn [Nat.add].
    apply threshold_error_none; [lia | lia |].
    intros c Hc. rewrite Forall_forall in Hcol. apply Hcol.
    eapply nth_error_In. eassumption.
  - cbn [Nat.add]. unfold threshold_error.
    destruct (nth_error cs (Nat.min (length cs) (length ns))) as [c|] eqn:Ec;
      [|reflexivity].
    destruct (nth_error ns (Nat.min (length cs) (length ns))) as [n|] eqn:En;
      [|reflexivity].
    assert (Nat.min (length cs) (length ns) < length cs)%nat
      by (apply nth_error_Some; congruence).
    assert (Nat.min (length cs) (length ns) < length ns)%nat
      by (apply nth_error_Some; congruence).
    lia.
  - exists added. split; [exact (Hloop _ _ H1) | exact Hlen].
Qed.

Lemma work_short_lists_witness :
  exists added,
    work sample_env "data.csv" "out.png" (Some [7%Q; 8%Q])
         (Some ["low"%string; "high"%string]) (Some ["red"%string])
         "Value" None (Some (date 2020 1 1)) (Some 1%Q) sample_world
    = (drawn sample_world added, Raise IndexError)
    /\ length added = 1%nat.
Proof.
  eapply (work_short_lists sample_env "data.csv"
            [(5%Q, date 2020 1 1); (6%Q, date 2020 1 2)]).
  - reflexivity.
  - discriminate.
  - vm_compute; reflexivity.
  - discriminate.
  - apply le_n.
  - repeat constructor.
Defined.

(** X19: a colour that is none to the environment ends [work] in a
    value error at the line of its threshold, when the thresholds
    before it all have a name and a colour that is one, and its own
    threshold has a name; the lines drawn before stay on the figure. *)
Theorem work_invalid_colour (E : Env) name rows png ths (ns cs : list string)
    label s d g (target : Series) (w : World) (k : nat) (c : string) :
  lookup_file name (files w) = Some rows ->
  rows <> [] ->
  get_target d g None (Some (series_of_rows rows)) (Some ths) = Ok target ->
  target <> [] ->
  (k < length ths)%nat ->
  (k < length ns)%nat ->
  nth_error cs k = Some c ->
  is_color E c = false ->
  Forall (fun c' => is_color E c' = true) (firstn k cs) ->
  exists added,
    work E name png (Some ths) (Some ns) (Some cs) label s d g w
    = (drawn w added, Raise ValueError)
    /\ length added = k.
Proof.
  intros Hf Hne Ht Htne Hk Hn Hc Hbad Hgood.
  assert (Hkc : (k < length cs)%nat) by (apply nth_error_Some; congruence).
  destruct (work_loop E name rows png ths (Some ns) (Some cs) label s d g
              target w Hf Hne Ht Htne) as (x0 & x1 & Hloop).
  destruct (for_enumerate_stops E x0 x1 ns cs ths ValueError k 0 w)
    as (added & H1 & Hlen).
  - exact Hk.
  - intros j Hj. cbn [Nat.add].
    apply threshold_error_none; [lia | lia |].
    intros c' Hc'. rewrite Forall_forall in Hgood. apply Hgood.
    apply (nth_error_In _ j). rewrite nth_error_firstn.
    destruct (Nat.ltb_spec j k); [assumption | lia].
  - cbn [Nat.add]. unfold threshold_error. rewrite Hc.
    destruct (nth_error ns k) as [n|] eqn:En;
      [|apply nth_error_None in En; lia].
    now rewrite Hbad.
  - exists added. split; [exact (Hloop _ _ H1) | exact Hlen].
Qed.

Lemma work_invalid_colour_witness :
  exists added,
    work sample_env "data.csv" "out.png" (Some [7%Q; 8%Q])
         (Some ["low"%string; "high"%string])
         (Some ["red"%string; "notacolour"%string])
         "Value" None (Some (date 2020 1 1)) (Some 1%Q) sample_world
    = (drawn sample_world added, Raise ValueError)
    /\ length added = 1%nat.
Proof.
  eapply (work_invalid_colour sample_env "data.csv"
            [(5%Q, date 2020 1 1); (6%Q, date 2020 1 2)]).
  - reflexivity.
  - discriminate.
  - vm_compute; reflexivity.
  - discriminate.
  - apply le_n.
  - apply le_n.
  - reflexivity.
  - reflexivity.
  - repeat constructor.
Defined.

(** ** An image under the name of the data *)



(** ** The span of the threshold lines *)

Lemma sorted_between (l : list Z) (a b : Z) :
  StronglySorted Z.le l ->
  first_item l = Ok a -> last_item l = Ok b ->
  Forall (fun t => a <= t <= b) l.
Proof.
  intros Hs Ha Hb.
  assert (Hlast : forall l b, StronglySorted Z.le l -> last_item l = Ok b ->
                    Forall (fun t => t <= b) l).
  { clear. induction l as [|x l IH]; intros b Hs Hb; [constructor|].
    inversion Hs as [|? ? Hs' Hx]; subst.
    destruct l as [|y l].
    - cbv in Hb. injection Hb as <-. constructor; [lia | constructor].
    - assert (Hb' : last_item (y :: l) = Ok b).
      { unfold last_item in *. cbn [rev] in *.
        destruct (rev l ++ [y]) eqn:E.
        - destruct (rev l); discriminate.
        - cbn in *. exact Hb. }
      specialize (IH b Hs' Hb'). constructor; [|exact IH].
      inversion IH; subst. inversion Hx; subst. lia. }
  specialize (Hlast l b Hs Hb).
  destruct l as [|x l]; [constructor|].
  injection Ha as ->. inversion Hs as [|? ? _ Hx]; subst.
  inversion Hlast; subst.
  constructor; [lia|].
  apply Forall_forall. intros t Ht.
  rewrite Forall_forall in Hx, H2. specialize (Hx t Ht).
  specialize (H2 t Ht). lia.
Qed.

Lemma date_range_sorted (start stop : Timestamp) :
  StronglySorted Z.le (pd.date_range start stop).
Proof.
  destruct (Z_lt_le_dec stop start) as [Hlt|Hle].
  - rewrite date_range_empty by assumption. constructor.
  - rewrite date_range_steps by assumption.
    apply StronglySorted_map_seq. intros i j _ Hij _.
    pose proof DAY_pos. nia.
Qed.

(** X16: when the dates of the file are in ascending order, the
    threshold lines of a successful run span every date of the series
    and every date of the target curve. *)
Theorem work_threshold_span (E : Env) name png th names colours label s d g
    (w w' : World) :
  work E name png th names colours label s d g w = (w', Ok tt) ->
  exists rows target x0 x1 line,
    lookup_file name (files w) = Some rows
    /\ get_target d g None (Some (series_of_rows rows)) th = Ok target
    /\ nth_error (fig_lines (gcf w')) (length (fig_lines (gcf w)))
       = Some line
    /\ xdata line = [x0; x1]
    /\ (StronglySorted Z.le (pd.index (series_of_rows rows)) ->
        forall t, In t (pd.index (series_of_rows rows))
                  \/ In t (pd.index target) ->
                  x0 <= t <= x1).
Proof.
  intros H. apply work_ok_inv in H.
  destruct H as (rows & target & ths & a0 & b0 & a1 & b1 & added & H).
  destruct H as (Hf & _ & Ht & Hth & Ha0 & Hb0 & Ha1 & Hb1 & Hlen & Hnth
                 & ->).
  assert (Hne : ths <> []).
  { subst th. eapply get_target_thresholds. eassumption. }
  destruct ths as [|t0 ths]; [congruence|].
  destruct (Hnth 0%nat t0 eq_refl) as (c & n & _ & _ & Hline).
  exists rows, target, (Z.min a0 b0), (Z.max a1 b1),
         (threshold_line (Z.min a0 b0) (Z.max a1 b1) t0 c n).
  split; [assumption|]. split; [assumption|].
  split.
  { cbn [gcf finished fig_lines]. rewrite nth_error_app2 by lia.
    rewrite Nat.sub_diag. rewrite nth_error_app1; [assumption|].
    apply nth_error_Some. congruence. }
  split; [reflexivity|].
  intros Hsorted t Hin.
  pose proof (sorted_between _ _ _ Hsorted Ha0 Ha1) as Hs.
  apply get_target_inv in Ht. destruct Ht as (p & _ & ->).
  pose proof (date_range_sorted (start_date p) (end_date p)) as Hd.
  rewrite <- curve_index in Hd.
  pose proof (sorted_between _ _ _ Hd Hb0 Hb1) as Hc.
  rewrite Forall_forall in Hs, Hc.
  destruct Hin as [Hin|Hin]; [specialize (Hs t Hin) | specialize (Hc t Hin)];
    lia.
Qed.

Lemma work_threshold_span_witness :
  exists w' line,
    sample_run "out.png" sample_world = (w', Ok tt)
    /\ nth_error (fig_lines (gcf w')) 0 = Some line
    /\ xdata line = [date 2020 1 1; date 2020 1 3].
Proof.
  eexists.
  match goal with
  | |- exists line, _ = (?w', _) /\ _ =>
      destruct (work_threshold_span sample_env "data.csv" "out.png"
                  (Some [7%Q])
                  (Some ["limit"%string]) (Some ["red"%string]) "Value"
                  None (Some (date 2020 1 1)) (Some 1%Q) sample_world w')
        as (rows & target & x0 & x1 & line & _ & _ & Hl & Hx & _)
  end.
  - vm_compute; reflexivity.
  - exists line. split; [vm_compute; reflexivity|].
    split; [exact Hl|].
    vm_compute in Hl. injection Hl as <-. vm_compute. reflexivity.
Defined.

(** ** The curve stays between its end points *)

Lemma StronglySorted_nth_error {A : Type} (R : A -> A -> Prop)
    (l : list A) (i j : nat) (x y : A) :
  StronglySorted R l -> (i < j)%nat ->
  nth_error l i = Some x -> nth_error l j = Some y -> R x y.
Proof.
  intros Hs. revert i j. induction Hs as [|a l Hs IH Ha]; intros i j Hij Hx Hy.
  - destruct i; discriminate.
  - destruct j as [|j]; [lia|]. cbn [nth_error] in Hy.
    destruct i as [|i].
    + injection Hx as <-. rewrite Forall_forall in Ha. apply Ha.
      eapply nth_error_In. eassumption.
    + cbn [nth_error] in Hx. apply (IH i j); [lia | assumption | assumption].
Qed.

Lemma linspace_between (a b : Q) (n : nat) (v : Q) :
  In v (np.linspace a b n) ->
  ((a <= v /\ v <= b) \/ (b <= v /\ v <= a))%Q.
Proof.
  intros Hin.
  assert (Hfirst : forall m, exists v0,
            nth_error (np.linspace a b (S m)) 0 = Some v0 /\ (v0 == a)%Q).
  { intros [|m].
    - exists a. split; reflexivity.
    - destruct (linspace_nth a b m 0 ltac:(lia)) as (v0 & H0 & E0).
      exists v0. split; [assumption|]. rewrite E0.
      change (inject_Z (Z.of_nat 0)) with 0%Q. ring. }
  assert (Hlast : forall m, exists v1,
            nth_error (np.linspace a b (S m)) m = Some v1
            /\ (m <> 0%nat -> (v1 == b)%Q)).
  { intros [|m].
    - exists a. split; [reflexivity | congruence].
    - destruct (linspace_nth a b m (S m) ltac:(lia)) as (v1 & H1 & E1).
      exists v1. split; [assumption|]. intros _. rewrite E1.
      rewrite <- (linspace_stop a b m) at 2. ring. }
  destruct n as [|m]; [destruct Hin|].
  apply In_nth_error in Hin. destruct Hin as (k & Hk).
  assert (Hkm : (k < S m)%nat).
  { rewrite <- (linspace_length a b (S m)). apply nth_error_Some.
    congruence. }
  destruct (Hfirst m) as (v0 & H0 & E0).
  destruct (Hlast m) as (v1 & H1 & E1).
  destruct (Nat.eq_dec m 0) as [->|Hm].
  { assert (k = 0%nat) by lia. subst k.
    assert (v = v0) by congruence. subst v0.
    destruct (Qlt_le_dec b a); [right | left]; split; lra. }
  specialize (E1 Hm).
  destruct (Qlt_le_dec b a) as [Hba|Hab].
  - right.
    pose proof (linspace_decreasing a b (S m) (Qlt_le_weak _ _ Hba)) as Hs.
    split.
    + destruct (Nat.eq_dec k m) as [->|Hne].
      * assert (v = v1) by congruence. subst v1. lra.
      * pose proof (StronglySorted_nth_error _ _ k m _ _ Hs
                      ltac:(lia) Hk H1) as Hle.
        cbv beta in Hle. lra.
    + destruct (Nat.eq_dec k 0) as [->|Hne].
      * assert (v = v0) by congruence. subst v0. lra.
      * pose proof (StronglySorted_nth_error _ _ 0%nat k _ _ Hs
                      ltac:(lia) H0 Hk) as Hle.
        cbv beta in Hle. lra.
  - left.
    pose proof (linspace_increasing a b (S m) Hab) as Hs.
    split.
    + destruct (Nat.eq_dec k 0) as [->|Hne].
      * assert (v = v0) by congruence. subst v0. lra.
      * pose proof (StronglySorted_nth_error _ _ 0%nat k _ _ Hs
                      ltac:(lia) H0 Hk) as Hle. lra.
    + destruct (Nat.eq_dec k m) as [->|Hne].
      * assert (v = v1) by congruence. subst v1. lra.
      * pose proof (StronglySorted_nth_error _ _ k m _ _ Hs
                      ltac:(lia) Hk H1) as Hle. lra.
Qed.

(** X17: every point of the curve is dated between the start date
    and the end date, and its value lies between the start value and the
    end value. *)
Theorem curve_within (p : Plan) (t : Timestamp) (v : Q) :
  In (t, v) (curve p) ->
  start_date p <= t <= end_date p
  /\ ((start_value p <= v /\ v <= end_value p)
      \/ (end_value p <= v /\ v <= start_value p))%Q.
Proof.
  intros Hin. split.
  - assert (Ht : In t (pd.index (curve p)))
      by (change t with (fst (t, v)); now apply in_map).
    rewrite curve_index in Ht.
    destruct (Z_lt_le_dec (end_date p) (start_date p)) as [Hlt|Hle].
    { rewrite date_range_empty in Ht by assumption. destruct Ht. }
    rewrite date_range_steps in Ht by assumption.
    apply in_map_iff in Ht. destruct Ht as (k & <- & Hk).
    apply in_seq in Hk.
    pose proof (whole_days_bound _ _ Hle) as [Hlo _].
    pose proof DAY_pos. nia.
  - assert (Hv : In v (pd.values (curve p)))
      by (change v with (snd (t, v)); now apply in_map).
    rewrite curve_values in Hv.
    eapply linspace_between. eassumption.
Qed.

Lemma curve_within_witness :
  date 2020 1 1 <= date 2020 1 3 <= date 2020 1 3 + 12 * HOUR.
Proof.
  refine (proj1 (curve_within
                   {| start_date := date 2020 1 1; start_value := 10;
                      end_value := 20;
                      end_date := date 2020 1 3 + 12 * HOUR |}
                   (date 2020 1 3) 20%Q _)).
  vm_compute. right. right. left. reflexivity.
Defined.

(** ** A start that cannot be read from the series *)

(** X18: without [target_start], [get_target] needs a series, a
    date and an entry to pick: with no series it ends in an attribute
    error, with a series but no date in a type error, and with a date
    but an empty series in the value error of argmin; this holds
    whatever the gradient and the thresholds are. *)
Theorem get_target_start_errors (g : option Q) (th : option (list Q)) :
  (forall d, get_target d g None None th = Raise AttributeError)
  /\ (forall s, get_target None g None (Some s) th = Raise TypeError)
  /\ (forall d, get_target (Some d) g None (Some []) th = Raise ValueError).
Proof. repeat split; reflexivity. Qed.
